(** * PitchMi: the evaluation relay and its HTTP front door

    A shallow embedding of [app.py]: the outbound call to the model service
    with its retry loop ([call_gemini_with_video]) and the Flask handler of
    [POST /evaluate] ([evaluate_pitch]).

    Python values that travel as JSON are an inductive type; exceptions are
    values of a record (class and message); the network and the clock are an
    explicit world (a call counter and a trace of events) threaded by a small
    state-and-exception monad.  The messages of the interpreter's own
    exceptions are worded as CPython 3.12 words them. *)

From Stdlib Require Import String Ascii List ZArith NArith Lia Bool.
From Stdlib.Strings Require Import Byte.
From Stdlib Require Import DecimalString.
Import ListNotations.

Local Open Scope string_scope.
Local Open Scope Z_scope.

Set Warnings "-register-all".

(** ** Python values *)

(** The values [json.loads] and [Response.json] can produce, and the
    literals the handler builds.  A [dict] keeps its items in insertion
    order; lookup takes the first item with the key. *)
Inductive json : Type :=
| JNull
| JBool (b : bool)
| JInt (n : Z)
| JFloat (repr : string)
| JStr (s : string)
| JList (items : list json)
| JDict (items : list (string * json)).

(** [type(v).__name__] *)
Definition class_name (v : json) : string :=
  match v with
  | JNull => "NoneType"
  | JBool _ => "bool"
  | JInt _ => "int"
  | JFloat _ => "float"
  | JStr _ => "str"
  | JList _ => "list"
  | JDict _ => "dict"
  end.

(** [isinstance(v, dict)] *)
Definition isinstance_dict (v : json) : bool :=
  match v with JDict _ => true | _ => false end.

Fixpoint dict_get (items : list (string * json)) (k : string) : option json :=
  match items with
  | [] => None
  | (k', v) :: rest => if String.eqb k' k then Some v else dict_get rest k
  end.

(** [d[k] = v]: a key already there keeps its place. *)
Fixpoint dict_set (items : list (string * json)) (k : string) (v : json)
    : list (string * json) :=
  match items with
  | [] => [(k, v)]
  | (k', v') :: rest =>
      if String.eqb k' k then (k, v) :: rest else (k', v') :: dict_set rest k v
  end.

(** ** Exceptions *)

Inductive exc_class : Type :=
| RuntimeError
| Timeout              (* requests.exceptions.Timeout and its subclasses *)
| RequestException     (* any other requests.exceptions.RequestException *)
| JSONDecodeError
| KeyError
| IndexError
| TypeError
| UnboundLocalError
| OSError.

Record exn : Type := mk_exn { exc_type : exc_class; exc_str : string }.

(** [str(e)] *)
Definition str (e : exn) : string := exc_str e.

Definition is_Timeout (e : exn) : bool :=
  match exc_type e with Timeout => true | _ => false end.

Definition is_JSONDecodeError (e : exn) : bool :=
  match exc_type e with JSONDecodeError => true | _ => false end.

(** Every class above derives from [Exception]. *)
Definition is_Exception (e : exn) : bool := true.

Definition is_RuntimeError (e : exn) : bool :=
  match exc_type e with RuntimeError => true | _ => false end.

Inductive result (A : Type) : Type :=
| Ok (a : A)
| Raise (e : exn).
Arguments Ok {A} a.
Arguments Raise {A} e.

(** ** Subscripting *)

Inductive subscript : Type :=
| KStr (k : string)
| KInt (i : Z).

(** [seq[i]] on a sequence of length [len]: the position read, if any. *)
Definition seq_index (len : nat) (i : Z) : option nat :=
  if (0 <=? i) && (i <? Z.of_nat len) then Some (Z.to_nat i)
  else if (i <? 0) && (- Z.of_nat len <=? i) then Some (Z.to_nat (Z.of_nat len + i))
  else None.

Definition not_subscriptable (v : json) : exn :=
  mk_exn TypeError ("'" ++ class_name v ++ "' object is not subscriptable").

(** [repr] of a subscript as [KeyError] shows it. *)
Definition key_repr (k : subscript) : string :=
  match k with
  | KStr s => "'" ++ s ++ "'"
  | KInt i => NilEmpty.string_of_int (Z.to_int i)
  end.

(** [v[k]] *)
Definition getitem (v : json) (k : subscript) : result json :=
  match v, k with
  | JDict items, KStr s =>
      match dict_get items s with
      | Some x => Ok x
      | None => Raise (mk_exn KeyError (key_repr k))
      end
  | JDict _, KInt _ => Raise (mk_exn KeyError (key_repr k))
  | JList items, KInt i =>
      match seq_index (List.length items) i with
      | Some n =>
          match nth_error items n with
          | Some x => Ok x
          | None => Raise (mk_exn IndexError "list index out of range")
          end
      | None => Raise (mk_exn IndexError "list index out of range")
      end
  | JList _, KStr _ =>
      Raise (mk_exn TypeError "list indices must be integers or slices, not str")
  | JStr s, KInt i =>
      match seq_index (String.length s) i with
      | Some n =>
          match String.get n s with
          | Some c => Ok (JStr (String c EmptyString))
          | None => Raise (mk_exn IndexError "string index out of range")
          end
      | None => Raise (mk_exn IndexError "string index out of range")
      end
  | JStr _, KStr _ =>
      Raise (mk_exn TypeError "string indices must be integers, not 'str'")
  | _, _ => Raise (not_subscriptable v)
  end.

(** ** Text helpers *)

(** [str(n)] for an [int] *)
Definition str_of_int (n : Z) : string := NilEmpty.string_of_int (Z.to_int n).

(** [s[:n]] *)
Definition slice_to (n : nat) (s : string) : string := substring 0 n s.

(** ** base64.b64encode *)

Definition b64_char (i : N) : ascii :=
  if (i <? 26)%N then ascii_of_N (65 + i)
  else if (i <? 52)%N then ascii_of_N (97 + (i - 26))
  else if (i <? 62)%N then ascii_of_N (48 + (i - 52))
  else if (i =? 62)%N then "+"%char
  else "/"%char.

Definition sextet (n : N) (k : N) : ascii :=
  b64_char (N.land (N.shiftr n (6 * k)) 63).

Fixpoint b64encode (bs : list byte) : string :=
  match bs with
  | [] => EmptyString
  | [b0] =>
      let n := (Byte.to_N b0 * 65536)%N in
      String (sextet n 3) (String (sextet n 2) "==")
  | [b0; b1] =>
      let n := (Byte.to_N b0 * 65536 + Byte.to_N b1 * 256)%N in
      String (sextet n 3) (String (sextet n 2) (String (sextet n 1) "="))
  | b0 :: b1 :: b2 :: rest =>
      let n := (Byte.to_N b0 * 65536 + Byte.to_N b1 * 256 + Byte.to_N b2)%N in
      String (sextet n 3) (String (sextet n 2)
        (String (sextet n 1) (String (sextet n 0) (b64encode rest))))
  end.

(** The place of a character in the base64 alphabet. *)
Definition b64_index (c : ascii) : option N :=
  let n := N_of_ascii c in
  if ((65 <=? n) && (n <=? 90))%N then Some (n - 65)%N
  else if ((97 <=? n) && (n <=? 122))%N then Some (n - 71)%N
  else if ((48 <=? n) && (n <=? 57))%N then Some (n + 4)%N
  else if (n =? 43)%N then Some 62%N
  else if (n =? 47)%N then Some 63%N
  else None.

(** [base64.b64decode] on what [b64encode] writes: groups of four
    characters, the last one padded with [=]. *)
Fixpoint b64decode (s : string) : option (list byte) :=
  match s with
  | EmptyString => Some []
  | String c3 (String c2 (String c1 (String c0 rest))) =>
      match b64_index c3, b64_index c2 with
      | Some s3, Some s2 =>
          if Ascii.eqb c1 "=" then
            if Ascii.eqb c0 "=" then
              match rest, Byte.of_N (s3 * 4 + s2 / 16) with
              | EmptyString, Some b0 => Some [b0]
              | _, _ => None
              end
            else None
          else
            match b64_index c1 with
            | Some s1 =>
                if Ascii.eqb c0 "=" then
                  match rest, Byte.of_N (s3 * 4 + s2 / 16),
                        Byte.of_N ((s2 mod 16) * 16 + s1 / 4) with
                  | EmptyString, Some b0, Some b1 => Some [b0; b1]
                  | _, _, _ => None
                  end
                else
                  match b64_index c0 with
                  | Some s0 =>
                      match Byte.of_N (s3 * 4 + s2 / 16),
                            Byte.of_N ((s2 mod 16) * 16 + s1 / 4),
                            Byte.of_N ((s1 mod 4) * 64 + s0),
                            b64decode rest with
                      | Some b0, Some b1, Some b2, Some bs => Some (b0 :: b1 :: b2 :: bs)
                      | _, _, _, _ => None
                      end
                  | None => None
                  end
            | None => None
            end
      | _, _ => None
      end
  | _ => None
  end.

(** ** The outside world *)

(** What [requests.post] and [time.sleep] do to the world. *)
Inductive event : Type :=
| EvPost (url : string) (payload : json) (timeout : Z)
| EvSleep (seconds : Z).

(** A [requests.Response]: the two attributes the relay reads.  Its
    [json()] method decodes [text]. *)
Record response : Type := mk_response { status_code : Z; text : string }.

(** One outbound call either returns a response or raises. *)
Inductive post_outcome : Type :=
| Responds (r : response)
| Fails (e : exn).

Record world : Type := mk_world { calls : nat; trace : list event }.

Definition world0 : world := mk_world 0 [].

(** ** State and exceptions *)

Definition M (A : Type) : Type := world -> result A * world.

Definition ret {A} (a : A) : M A := fun w => (Ok a, w).

Definition raise {A} (e : exn) : M A := fun w => (Raise e, w).

Definition bind {A B} (c : M A) (k : A -> M B) : M B :=
  fun w =>
    match c w with
    | (Ok a, w') => k a w'
    | (Raise e, w') => (Raise e, w')
    end.

Definition lift {A} (r : result A) : M A := fun w => (r, w).

(** [try: body / except <class> as e: handler e] *)
Definition try_except {A} (body : M A) (catches : exn -> bool)
    (handler : exn -> M A) : M A :=
  fun w =>
    match body w with
    | (Ok a, w') => (Ok a, w')
    | (Raise e, w') => if catches e then handler e w' else (Raise e, w')
    end.

Declare Scope py_scope.
Delimit Scope py_scope with py.
Notation "x <- c ;; k" := (bind c (fun x => k))
  (at level 61, c at next level, right associativity) : py_scope.
Notation "c ;; k" := (bind c (fun _ => k))
  (at level 61, right associativity) : py_scope.
Local Open Scope py_scope.

(** [range(n)] *)
Definition range (n : Z) : list Z := map Z.of_nat (seq 0 (Z.to_nat n)).

(** [a or b] on an attribute that is [None] or a [str] *)
Definition py_or (a : option string) (b : string) : string :=
  match a with
  | None => b
  | Some EmptyString => b
  | Some s => s
  end.

(** What the standard decoder says of a text. *)
Inductive decoded : Type :=
| Decoded (v : json)
| DecodeError (msg : string).

Definition GEMINI_MODEL : string := "gemini-2.5-flash".

(** ** Flask values *)

(** An uploaded file: what [read()] gives and the [mimetype] attribute. *)
Record FileStorage : Type :=
  mk_file { read : result (list byte); mimetype : option string }.

(** [request.files]: the fields in the order of the form. *)
Record request : Type := mk_request { files : list (string * FileStorage) }.

Record http_response : Type := mk_http { body : json; status : Z }.

(** ** A decoder to run the model on wire texts

    [MiniJson.loads] decodes a fragment of JSON (no floats, no [\u]
    escapes) the way [json.loads] does on it; the relay is stated over any
    decoder and run on this one. *)
Module MiniJson.

Definition is_ws (c : ascii) : bool :=
  match c with
  | " "%char | "009"%char | "010"%char | "013"%char => true
  | _ => false
  end.

Fixpoint skip_ws (s : string) : string :=
  match s with
  | String c r => if is_ws c then skip_ws r else s
  | EmptyString => s
  end.

Definition digit_of (c : ascii) : option Z :=
  let n := Z.of_nat (nat_of_ascii c) in
  if (48 <=? n) && (n <=? 57) then Some (n - 48) else None.

Fixpoint digits (s : string) (acc : Z) : Z * string :=
  match s with
  | String c r =>
      match digit_of c with
      | Some d => digits r (10 * acc + d)
      | None => (acc, s)
      end
  | EmptyString => (acc, s)
  end.

Definition unescape (c : ascii) : option ascii :=
  match c with
  | "034"%char => Some "034"%char
  | "\"%char => Some "\"%char
  | "/"%char => Some "/"%char
  | "n"%char => Some "010"%char
  | "t"%char => Some "009"%char
  | "r"%char => Some "013"%char
  | _ => None
  end.

(** After the opening quote: the text up to the closing one. *)
Fixpoint string_body (s : string) : option (string * string) :=
  match s with
  | EmptyString => None
  | String "034" r => Some (EmptyString, r)
  | String "\" (String e r) =>
      match unescape e, string_body r with
      | Some c, Some (t, rest) => Some (String c t, rest)
      | _, _ => None
      end
  | String "\" EmptyString => None
  | String c r =>
      match string_body r with
      | Some (t, rest) => Some (String c t, rest)
      | None => None
      end
  end.

Definition number (s : string) : option (json * string) :=
  match s with
  | String "-" (String c r) =>
      match digit_of c with
      | Some d => let '(n, rest) := digits r d in Some (JInt (- n), rest)
      | None => None
      end
  | String c r =>
      match digit_of c with
      | Some d => let '(n, rest) := digits r d in Some (JInt n, rest)
      | None => None
      end
  | EmptyString => None
  end.

Definition keyword (s : string) : option (json * string) :=
  if String.prefix "null" s then Some (JNull, substring 4 (String.length s - 4) s)
  else if String.prefix "true" s then Some (JBool true, substring 4 (String.length s - 4) s)
  else if String.prefix "false" s then Some (JBool false, substring 5 (String.length s - 5) s)
  else None.

Fixpoint value (fuel : nat) (s : string) : option (json * string) :=
  match fuel with
  | O => None
  | S f =>
      match skip_ws s with
      | String "{" r =>
          match skip_ws r with
          | String "}" r' => Some (JDict [], r')
          | _ =>
              match members f r with
              | Some (kvs, rest) =>
                  Some (JDict (fold_left (fun d kv => dict_set d (fst kv) (snd kv))
                                 kvs []), rest)
              | None => None
              end
          end
      | String "[" r =>
          match skip_ws r with
          | String "]" r' => Some (JList [], r')
          | _ =>
              match elements f r with
              | Some (vs, rest) => Some (JList vs, rest)
              | None => None
              end
          end
      | String "034" r =>
          match string_body r with
          | Some (t, rest) => Some (JStr t, rest)
          | None => None
          end
      | String _ _ as s' =>
          match number s' with
          | Some x => Some x
          | None => keyword s'
          end
      | EmptyString => None
      end
  end
with elements (fuel : nat) (s : string) : option (list json * string) :=
  match fuel with
  | O => None
  | S f =>
      match value f s with
      | Some (v, r) =>
          match skip_ws r with
          | String "," r' =>
              match elements f r' with
              | Some (vs, rest) => Some (v :: vs, rest)
              | None => None
              end
          | String "]" r' => Some ([v], r')
          | _ => None
          end
      | None => None
      end
  end
with members (fuel : nat) (s : string) : option (list (string * json) * string) :=
  match fuel with
  | O => None
  | S f =>
      match skip_ws s with
      | String "034" r =>
          match string_body r with
          | Some (k, r1) =>
              match skip_ws r1 with
              | String ":" r2 =>
                  match value f r2 with
                  | Some (v, r3) =>
                      match skip_ws r3 with
                      | String "," r4 =>
                          match members f r4 with
                          | Some (kvs, rest) => Some ((k, v) :: kvs, rest)
                          | None => None
                          end
                      | String "}" r4 => Some ([(k, v)], r4)
                      | _ => None
                      end
                  | None => None
                  end
              | _ => None
              end
          | None => None
          end
      | _ => None
      end
  end.

Definition loads (s : string) : decoded :=
  match value (2 * String.length s + 2) s with
  | Some (v, rest) =>
      match skip_ws rest with
      | EmptyString => Decoded v
      | _ => DecodeError "Extra data"
      end
  | None => DecodeError "Expecting value"
  end.

(** Wire texts are written with ['] for the double quote. *)
Fixpoint q (s : string) : string :=
  match s with
  | String "'" r => String "034" (q r)
  | String c r => String c (q r)
  | EmptyString => EmptyString
  end.

End MiniJson.

(** ** Runs to evaluate the model on *)

Module Fixtures.
Import MiniJson.

Definition overloaded : response := mk_response 503 "The model is overloaded.".

Definition verdict_text : string :=
  q "{'structure_score':78,'presentation_score':81,'clarity_score':75,'weighted_total':79,'comments':['Lead with the problem','Cut the filler words','End on one ask']}".

Definition verdict : list (string * json) :=
  [ ("structure_score", JInt 78); ("presentation_score", JInt 81);
    ("clarity_score", JInt 75); ("weighted_total", JInt 79);
    ("comments",
     JList [JStr "Lead with the problem"; JStr "Cut the filler words";
            JStr "End on one ask"]) ].

(** An envelope holding [answer] at the answer-text location. *)
Definition envelope (answer : json) : json :=
  JDict [("candidates",
          JList [JDict [("content",
                         JDict [("parts", JList [JDict [("text", answer)]])])]])].

Definition answered : response :=
  mk_response 200
    (q "{'candidates':[{'content':{'parts':[{'text':'{\'structure_score\':78,\'presentation_score\':81,\'clarity_score\':75,\'weighted_total\':79,\'comments\':[\'Lead with the problem\',\'Cut the filler words\',\'End on one ask\']}'}]}}]}").

(** 310 characters. *)
Definition long_body : string := String.concat "" (repeat "0123456789" 31).

Definition teapot : response := mk_response 418 long_body.

Definition no_candidates : response := mk_response 200 (q "{'candidates':[]}").

Definition number_at_location : response :=
  mk_response 200 (q "{'candidates':[{'content':{'parts':[{'text':5}]}}]}").

Definition prose_answer : response :=
  mk_response 200
    (q "{'candidates':[{'content':{'parts':[{'text':'Here is my verdict'}]}}]}").

Definition array_answer : response :=
  mk_response 200 (q "{'candidates':[{'content':{'parts':[{'text':'[78, 81]'}]}}]}").

Definition html_page : response := mk_response 200 "<html>Bad gateway</html>".

(** The services: by the number of the call they receive. *)
Definition busy_twice (n : nat) : post_outcome :=
  match n with
  | 0%nat | 1%nat => Responds overloaded
  | _ => Responds answered
  end.

Definition always_busy (n : nat) : post_outcome := Responds overloaded.

Definition always (r : response) (n : nat) : post_outcome := Responds r.

Definition slow_then (r : response) (n : nat) : post_outcome :=
  match n with
  | 0%nat => Fails (mk_exn Timeout "Read timed out. (read timeout=300)")
  | _ => Responds r
  end.

Definition clip_bytes : list byte := [x00; x00; x00; x18; x66]%byte.

Definition clip : FileStorage := mk_file (Ok clip_bytes) (Some "video/webm").
Definition untyped_clip : FileStorage := mk_file (Ok clip_bytes) (Some "").
Definition empty_clip : FileStorage := mk_file (Ok []) (Some "video/webm").
Definition unreadable_clip : FileStorage :=
  mk_file (Raise (mk_exn OSError "I/O operation on closed file.")) (Some "video/webm").

Definition upload (f : FileStorage) : request := mk_request [("video", f)].
Definition other_field : request := mk_request [("audio", clip)].

Definition key : string := "k-000".
Definition rubric : string := "Evaluate the pitch.".

End Fixtures.

(** ** The relay and the front door *)

Section App.

(** [json.loads] on a [str]: the standard library's decoder. *)
Variable json_loads : string -> decoded.

(** The model service: what the [n]-th outbound call of the process
    meets (counting from 0). *)
Variable upstream : nat -> post_outcome.

(** Process configuration read at import, and the rubric text, a
    constant of the module whose wording plays no role below. *)
Variable GEMINI_API_KEY : string.
Variable EVAL_PROMPT : string.

(** [requests.post(url, json=payload, timeout=timeout)] *)
Definition requests_post (url : string) (payload : json) (timeout : Z)
    : M response :=
  fun w =>
    let w' := mk_world (S (calls w)) (trace w ++ [EvPost url payload timeout]) in
    match upstream (calls w) with
    | Responds r => (Ok r, w')
    | Fails e => (Raise e, w')
    end.

(** [time.sleep(seconds)] *)
Definition time_sleep (seconds : Z) : M unit :=
  fun w => (Ok tt, mk_world (calls w) (trace w ++ [EvSleep seconds])).

(** [resp.json()] *)
Definition resp_json (r : response) : result json :=
  match json_loads (text r) with
  | Decoded v => Ok v
  | DecodeError msg => Raise (mk_exn JSONDecodeError msg)
  end.

(** [json.loads(v)] on whatever [v] is: only a [str] is decoded. *)
Definition json_loads_obj (v : json) : result json :=
  match v with
  | JStr s =>
      match json_loads s with
      | Decoded x => Ok x
      | DecodeError msg => Raise (mk_exn JSONDecodeError msg)
      end
  | _ =>
      Raise (mk_exn TypeError
        ("the JSON object must be str, bytes or bytearray, not " ++ class_name v))
  end.

Definition url : string :=
  "https://generativelanguage.googleapis.com/v1beta/models/"
  ++ GEMINI_MODEL ++ ":generateContent?key=" ++ GEMINI_API_KEY.

Definition build_payload (video_bytes : list byte) (mime_type : string) : json :=
  let b64_data := b64encode video_bytes in
  JDict
    [ ("contents",
       JList
         [ JDict
             [ ("role", JStr "user");
               ("parts",
                JList
                  [ JDict [ ("text", JStr EVAL_PROMPT) ];
                    JDict
                      [ ("inline_data",
                         JDict [ ("mime_type", JStr mime_type);
                                 ("data", JStr b64_data) ]) ] ]) ] ]);
      ("generationConfig",
       JDict [ ("temperature", JFloat "0.2");
               ("responseMimeType", JStr "application/json") ]) ].

Definition max_retries : Z := 3.

Inductive loop_ctl : Type := Continue | Break.

(** One iteration of the [for attempt in range(max_retries)] loop.
    [resp] is the local variable as the iteration finds it; the
    iteration returns it as it leaves it. *)
Definition attempt_body (payload : json) (attempt : Z) (resp : option response)
    : M (loop_ctl * option response) :=
  try_except
    (r <- requests_post url payload 300 ;;
     if (status_code r =? 503) && (attempt <? max_retries - 1) then
       time_sleep 5 ;; ret (Continue, Some r)
     else if negb (status_code r =? 200) then
       raise (mk_exn RuntimeError
                ("Gemini API error " ++ str_of_int (status_code r) ++ ": "
                 ++ slice_to 300 (text r)))
     else
       ret (Break, Some r))
    is_Timeout
    (fun _ =>
       if attempt <? max_retries - 1 then
         time_sleep 5 ;; ret (Continue, resp)
       else
         raise (mk_exn RuntimeError "Gemini API request timed out after retries")).

(** The loop over the attempts still to run; it ends on [break], on an
    exception, or when the range is used up. *)
Fixpoint for_attempts (payload : json) (attempts : list Z)
    (resp : option response) : M (option response) :=
  match attempts with
  | [] => ret resp
  | attempt :: rest =>
      c <- attempt_body payload attempt resp ;;
      match c with
      | (Continue, resp') => for_attempts payload rest resp'
      | (Break, resp') => ret resp'
      end
  end.

(** Lines 162-186: the retry loop; its value is the variable [resp]
    when control leaves the loop. *)
Definition send_with_retries (payload : json) : M (option response) :=
  for_attempts payload (range max_retries) None.

(** Reading the local [resp] after the loop. *)
Definition load_resp (resp : option response) : result response :=
  match resp with
  | Some r => Ok r
  | None =>
      Raise (mk_exn UnboundLocalError
        "cannot access local variable 'resp' where it is not associated with a value")
  end.

Definition bind_result {A B} (r : result A) (k : A -> result B) : result B :=
  match r with
  | Ok a => k a
  | Raise e => Raise e
  end.

(** [data["candidates"][0]["content"]["parts"][0]["text"]] *)
Definition answer_text (data : json) : result json :=
  bind_result (getitem data (KStr "candidates")) (fun v1 =>
  bind_result (getitem v1 (KInt 0)) (fun v2 =>
  bind_result (getitem v2 (KStr "content")) (fun v3 =>
  bind_result (getitem v3 (KStr "parts")) (fun v4 =>
  bind_result (getitem v4 (KInt 0)) (fun v5 =>
  getitem v5 (KStr "text")))))).

(** Lines 188-202: from the response to the parsed object. *)
Definition read_answer (resp : option response) : M json :=
  r <- lift (load_resp resp) ;;
  data <- lift (resp_json r) ;;
  txt <- try_except (lift (answer_text data)) is_Exception
           (fun e => raise (mk_exn RuntimeError
              ("Unexpected Gemini response format: " ++ str e))) ;;
  parsed <- try_except (lift (json_loads_obj txt)) is_JSONDecodeError
           (fun e => raise (mk_exn RuntimeError
              ("Gemini did not return valid JSON: " ++ str e))) ;;
  if negb (isinstance_dict parsed) then
    raise (mk_exn RuntimeError "Gemini JSON root must be an object")
  else
    ret parsed.

Definition call_gemini_with_video (video_bytes : list byte) (mime_type : string)
    : M json :=
  let payload := build_payload video_bytes mime_type in
  resp <- send_with_retries payload ;;
  read_answer resp.

(** *** Flask side *)

(** [name in request.files] *)
Definition files_contains (req : request) (name : string) : bool :=
  existsb (fun kv => String.eqb (fst kv) name) (files req).

(** [request.files[name]]: the first file of that field. *)
Definition files_getitem (req : request) (name : string) : result FileStorage :=
  match find (fun kv => String.eqb (fst kv) name) (files req) with
  | Some kv => Ok (snd kv)
  | None => Raise (mk_exn KeyError ("'" ++ name ++ "'"))
  end.

(** [jsonify(v)], and [jsonify(v), code] *)
Definition jsonify (v : json) : http_response := mk_http v 200.
Definition with_status (r : http_response) (code : Z) : http_response :=
  mk_http (body r) code.

(** [not b] for [bytes] *)
Definition bytes_falsy (b : list byte) : bool :=
  match b with [] => true | _ => false end.

Definition evaluate_pitch (req : request) : M http_response :=
  try_except
    (if negb (files_contains req "video") then
       ret (with_status (jsonify (JDict [("error", JStr "missing 'video' file field")])) 400)
     else
       video_file <- lift (files_getitem req "video") ;;
       video_bytes <- lift (read video_file) ;;
       if bytes_falsy video_bytes then
         ret (with_status (jsonify (JDict [("error", JStr "empty video payload")])) 400)
       else
         let mime_type := py_or (mimetype video_file) "video/mp4" in
         result <- call_gemini_with_video video_bytes mime_type ;;
         ret (jsonify result))
    is_Exception
    (fun e =>
       ret (with_status
              (jsonify (JDict [("error", JStr "evaluation_failed");
                               ("message", JStr (str e))])) 500)).

(** [GET /] *)
Definition health : http_response :=
  jsonify (JDict [("status", JStr "pitch-evaluator-ready")]).

(** *** Vocabulary of the statements *)

(** The two retry triggers: status 503 and a request timeout. *)
Definition retryable (o : post_outcome) : bool :=
  match o with
  | Responds r => status_code r =? 503
  | Fails e => is_Timeout e
  end.

Definition retry_events (payload : json) : list event :=
  [EvPost url payload 300; EvSleep 5].

(** [k] attempts that were retried, then one more attempt. *)
Definition attempts_trace (payload : json) (k : nat) : list event :=
  concat (repeat (retry_events payload) k) ++ [EvPost url payload 300].

(** The world once attempt number [k] (from 0) has been made. *)
Definition after (payload : json) (w : world) (k : nat) : world :=
  mk_world (calls w + k + 1) (trace w ++ attempts_trace payload k).

(** From world [w], the attempts before number [k] all meet a retry
    trigger and attempt number [k] meets [o]. *)
Definition delivers (w : world) (k : nat) (o : post_outcome) : Prop :=
  (k <= 2)%nat
  /\ (forall i, (i < k)%nat -> retryable (upstream (calls w + i)) = true)
  /\ upstream (calls w + k) = o.

(** How the loop ends on the attempt that is not retried. *)
Definition last_attempt (o : post_outcome) : result (option response) :=
  match o with
  | Responds r =>
      if status_code r =? 200 then Ok (Some r)
      else Raise (mk_exn RuntimeError
             ("Gemini API error " ++ str_of_int (status_code r) ++ ": "
              ++ slice_to 300 (text r)))
  | Fails e =>
      if is_Timeout e then
        Raise (mk_exn RuntimeError "Gemini API request timed out after retries")
      else Raise e
  end.

(** The fixed nested location [candidates[0].content.parts[0].text] of
    an envelope, read by its shape: the value stored there, if the
    envelope has the location. *)
Definition answer_location (data : json) : option json :=
  match data with
  | JDict top =>
      match dict_get top "candidates" with
      | Some (JList (JDict candidate :: _)) =>
          match dict_get candidate "content" with
          | Some (JDict content) =>
              match dict_get content "parts" with
              | Some (JList (JDict part :: _)) => dict_get part "text"
              | _ => None
              end
          | _ => None
          end
      | _ => None
      end
  | _ => None
  end.

(** Lines 188-202 once the body has decoded, as a value. *)
Definition answer_of (data : json) : result json :=
  match answer_text data with
  | Raise e =>
      Raise (mk_exn RuntimeError ("Unexpected Gemini response format: " ++ str e))
  | Ok txt =>
      match json_loads_obj txt with
      | Raise e =>
          if is_JSONDecodeError e then
            Raise (mk_exn RuntimeError ("Gemini did not return valid JSON: " ++ str e))
          else Raise e
      | Ok parsed =>
          if isinstance_dict parsed then Ok parsed
          else Raise (mk_exn RuntimeError "Gemini JSON root must be an object")
      end
  end.

(** The request carries the field [video], whose file reads as the
    non-empty [video_bytes]. *)
Definition uploads (req : request) (f : FileStorage) (video_bytes : list byte) : Prop :=
  files_getitem req "video" = Ok f /\ read f = Ok video_bytes /\ video_bytes <> [].

(** The body of the 500 response for exception [e]. *)
Definition evaluation_failed (e : exn) : http_response :=
  mk_http (JDict [("error", JStr "evaluation_failed"); ("message", JStr (str e))]) 500.

(** [payload["contents"][0]["parts"][1]["inline_data"]["mime_type"]]:
    the media tag of an outbound request. *)
Definition media_tag (payload : json) : result json :=
  bind_result (getitem payload (KStr "contents")) (fun v1 =>
  bind_result (getitem v1 (KInt 0)) (fun v2 =>
  bind_result (getitem v2 (KStr "parts")) (fun v3 =>
  bind_result (getitem v3 (KInt 1)) (fun v4 =>
  bind_result (getitem v4 (KStr "inline_data")) (fun v5 =>
  getitem v5 (KStr "mime_type")))))).

Definition is_post (ev : event) : bool :=
  match ev with EvPost _ _ _ => true | EvSleep _ => false end.

(** The outbound calls recorded in a trace. *)
Definition posts (t : list event) : list event := filter is_post t.

(** *** The loop, one iteration at a time *)

Lemma attempt_body_retry payload a resp w :
  a < max_retries - 1 ->
  retryable (upstream (calls w)) = true ->
  exists resp',
    attempt_body payload a resp w
    = (Ok (Continue, resp'),
       mk_world (S (calls w)) (trace w ++ retry_events payload)).
Proof.
  intros Ha Hr. apply Z.ltb_lt in Ha.
  unfold attempt_body, try_except, bind, requests_post, time_sleep, ret, retry_events.
  destruct (upstream (calls w)) as [r | e]; simpl in Hr.
  - rewrite Hr, Ha. simpl. exists (Some r). now rewrite <- app_assoc.
  - rewrite Hr, Ha. simpl. exists resp. now rewrite <- app_assoc.
Qed.

Lemma attempt_body_last payload a resp w :
  (a < max_retries - 1 -> retryable (upstream (calls w)) = false) ->
  attempt_body payload a resp w
  = (match last_attempt (upstream (calls w)) with
     | Ok r => Ok (Break, r)
     | Raise e => Raise e
     end,
     mk_world (S (calls w)) (trace w ++ [EvPost url payload 300])).
Proof.
  intros Hlast. change (max_retries - 1) with 2 in Hlast.
  unfold attempt_body, try_except, bind, requests_post, time_sleep, ret, raise,
    last_attempt.
  change (max_retries - 1) with 2.
  destruct (upstream (calls w)) as [r | e]; simpl in *.
  - destruct (status_code r =? 503) eqn:E503; simpl.
    + destruct (a <? 2) eqn:Ea.
      * apply Z.ltb_lt in Ea. specialize (Hlast Ea). discriminate.
      * apply Z.eqb_eq in E503. rewrite E503. reflexivity.
    + destruct (status_code r =? 200); reflexivity.
  - destruct (is_Timeout e) eqn:Et; [| reflexivity].
    destruct (a <? 2) eqn:Ea; [| reflexivity].
    apply Z.ltb_lt in Ea. specialize (Hlast Ea). discriminate.
Qed.

(** A run of retried attempts at the head of the loop. *)
Lemma for_attempts_skip payload pre : forall rest resp w,
  Forall (fun a => a < max_retries - 1) pre ->
  (forall i, (i < length pre)%nat -> retryable (upstream (calls w + i)) = true) ->
  exists resp',
    for_attempts payload (pre ++ rest) resp w
    = for_attempts payload rest resp'
        (mk_world (calls w + length pre)
           (trace w ++ concat (repeat (retry_events payload) (length pre)))).
Proof.
  induction pre as [| a pre IH]; intros rest resp w Hpre Hretry.
  - exists resp. destruct w as [c t]. simpl.
    now rewrite Nat.add_0_r, app_nil_r.
  - inversion Hpre as [| ? ? Ha Hpre']; subst.
    destruct (attempt_body_retry payload a resp w Ha) as [resp1 Hstep].
    { rewrite <- (Nat.add_0_r (calls w)). apply Hretry. simpl. lia. }
    destruct (IH rest resp1
                (mk_world (S (calls w)) (trace w ++ retry_events payload)) Hpre')
      as [resp2 Hrest].
    { intros i Hi. simpl. rewrite <- Nat.add_succ_r. apply Hretry. simpl. lia. }
    exists resp2. simpl for_attempts. unfold bind at 1. rewrite Hstep.
    rewrite Hrest. simpl. rewrite <- app_assoc, Nat.add_succ_r. reflexivity.
Qed.

Lemma range_max_retries : range max_retries = [0; 1; 2].
Proof. reflexivity. Qed.

(** The loop on a run that retries [k] times and then stops. *)
Lemma send_with_retries_delivers payload w k o :
  delivers w k o ->
  ((k < 2)%nat -> retryable o = false) ->
  send_with_retries payload w = (last_attempt o, after payload w k).
Proof.
  intros (Hk & Hretry & Hlast) Hstop.
  unfold send_with_retries. rewrite range_max_retries.
  assert (Hsplit : exists pre rest : list Z,
             [0; 1; 2] = (pre ++ Z.of_nat k :: rest)%list
             /\ length pre = k
             /\ Forall (fun a => a < max_retries - 1) pre).
  { unfold max_retries.
    destruct k as [| [| [| k]]]; [ exists [], [1; 2] | exists [0], [2]
                                 | exists [0; 1], [] | lia ];
      (split; [reflexivity | split; [reflexivity |]]);
      repeat constructor; lia. }
  destruct Hsplit as (pre & rest & Heq & Hlen & Hpre). rewrite Heq.
  destruct (for_attempts_skip payload pre (Z.of_nat k :: rest) None w Hpre)
    as [resp' Hskip].
  { rewrite Hlen. exact Hretry. }
  rewrite Hskip, Hlen. simpl for_attempts. unfold bind at 1.
  rewrite attempt_body_last.
  - simpl calls. rewrite Hlast. unfold after, attempts_trace. simpl trace.
    rewrite <- app_assoc, Nat.add_1_r.
    destruct (last_attempt o); reflexivity.
  - simpl calls. rewrite Hlast. unfold max_retries. intros Hlt. apply Hstop. lia.
Qed.

(** Every run is of that kind. *)
Lemma send_with_retries_total w :
  exists k o, delivers w k o /\ ((k < 2)%nat -> retryable o = false).
Proof.
  destruct (retryable (upstream (calls w + 0))) eqn:E0.
  - destruct (retryable (upstream (calls w + 1))) eqn:E1.
    + exists 2%nat, (upstream (calls w + 2)). split; [| lia].
      split; [lia | split; [| reflexivity]].
      intros i Hi. destruct i as [| [| i]]; [assumption | assumption | lia].
    + exists 1%nat, (upstream (calls w + 1)). split; [| intros _; assumption].
      split; [lia | split; [| reflexivity]].
      intros i Hi. destruct i as [| i]; [assumption | lia].
  - exists 0%nat, (upstream (calls w + 0)). split; [| intros _; assumption].
    split; [lia | split; [| reflexivity]]. intros i Hi. lia.
Qed.

(** The loop over any attempts: it ends without an exception either on
    [break], with [resp] bound to a 200 response, or by using up
    attempts that all ran [continue]. *)
Lemma for_attempts_ok payload attempts : forall resp w res w',
  for_attempts payload attempts resp w = (Ok res, w') ->
  (exists r, res = Some r /\ status_code r = 200)
  \/ Forall (fun a => a < max_retries - 1) attempts.
Proof.
  induction attempts as [| a rest IH]; intros resp w res w' Hrun.
  - right. constructor.
  - simpl in Hrun. unfold bind in Hrun.
    destruct (Z.ltb_spec a (max_retries - 1)) as [Ha | Ha].
    + destruct (retryable (upstream (calls w))) eqn:Er.
      * destruct (attempt_body_retry payload a resp w Ha Er) as [resp1 Hstep].
        rewrite Hstep in Hrun.
        destruct (IH _ _ _ _ Hrun) as [Hbreak | Hall]; [now left |].
        right. now constructor.
      * rewrite attempt_body_last in Hrun by (intros _; exact Er).
        left. unfold last_attempt in Hrun.
        destruct (upstream (calls w)) as [r | e].
        -- destruct (status_code r =? 200) eqn:E200; [| discriminate].
           inversion Hrun; subst. exists r. split; [reflexivity |].
           now apply Z.eqb_eq.
        -- destruct (is_Timeout e); discriminate.
    + rewrite attempt_body_last in Hrun by lia.
      left. unfold last_attempt in Hrun.
      destruct (upstream (calls w)) as [r | e].
      * destruct (status_code r =? 200) eqn:E200; [| discriminate].
        inversion Hrun; subst. exists r. split; [reflexivity |].
        now apply Z.eqb_eq.
      * destruct (is_Timeout e); discriminate.
Qed.

(** *** Reading the envelope *)

Lemma getitem_key_ok v k x :
  getitem v (KStr k) = Ok x ->
  exists items, v = JDict items /\ dict_get items k = Some x.
Proof.
  destruct v; simpl; try discriminate.
  destruct (dict_get items k) eqn:E; [| discriminate].
  intros H; inversion H; subst. now exists items.
Qed.

Lemma seq_index_0 n : seq_index n 0 = match n with O => None | S _ => Some O end.
Proof. destruct n; reflexivity. Qed.


(** [v[0]] succeeds on a non-empty list, and on a non-empty [str],
    where it gives a [str] again. *)
Lemma getitem_0_ok v x :
  getitem v (KInt 0) = Ok x ->
  (exists rest, v = JList (x :: rest)) \/ (exists s, x = JStr s).
Proof.
  destruct v; simpl; try discriminate.
  - rewrite seq_index_0. destruct (String.length s); [discriminate |].
    destruct (get 0 s); [| discriminate].
    intros H; inversion H; subst. right. eauto.
  - rewrite seq_index_0. destruct items as [| y rest]; simpl; [discriminate |].
    intros H; inversion H; subst. left. eauto.
Qed.

Lemma answer_text_location data v :
  answer_text data = Ok v <-> answer_location data = Some v.
Proof.
  unfold answer_text, bind_result. split.
  - intros H.
    destruct (getitem data (KStr "candidates")) as [v1 |] eqn:E1; [| discriminate].
    destruct (getitem v1 (KInt 0)) as [v2 |] eqn:E2; [| discriminate].
    destruct (getitem v2 (KStr "content")) as [v3 |] eqn:E3; [| discriminate].
    destruct (getitem v3 (KStr "parts")) as [v4 |] eqn:E4; [| discriminate].
    destruct (getitem v4 (KInt 0)) as [v5 |] eqn:E5; [| discriminate].
    apply getitem_key_ok in E1 as (top & -> & T1).
    apply getitem_key_ok in E3 as (candidate & -> & T3).
    apply getitem_key_ok in E4 as (content & -> & T4).
    apply getitem_key_ok in H as (part & -> & T6).
    apply getitem_0_ok in E2 as [(rest2 & ->) | (s & Hs)]; [| discriminate].
    apply getitem_0_ok in E5 as [(rest5 & ->) | (s & Hs)]; [| discriminate].
    simpl. now rewrite T1, T3, T4.
  - intros H. destruct data as [| | | | | | top]; simpl in H; try discriminate.
    destruct (dict_get top "candidates") as [[| | | | | [| [| | | | | | candidate] ?] |] |] eqn:T1;
      try discriminate.
    destruct (dict_get candidate "content") as [[| | | | | | content] |] eqn:T3;
      try discriminate.
    destruct (dict_get content "parts") as [[| | | | | [| [| | | | | | part] ?] |] |] eqn:T4;
      try discriminate.
    simpl. rewrite T1. simpl. rewrite T3. simpl. rewrite T4. simpl. now rewrite H.
Qed.

Lemma answer_text_absent data :
  answer_location data = None -> exists e, answer_text data = Raise e.
Proof.
  intros Hnone. destruct (answer_text data) as [v | e] eqn:E; [| eauto].
  apply answer_text_location in E. congruence.
Qed.

Lemma read_answer_undecodable r w msg :
  json_loads (text r) = DecodeError msg ->
  read_answer (Some r) w = (Raise (mk_exn JSONDecodeError msg), w).
Proof.
  intros H. unfold read_answer, bind, lift, load_resp, resp_json.
  now rewrite H.
Qed.

Lemma read_answer_decoded r w data :
  json_loads (text r) = Decoded data ->
  read_answer (Some r) w = (answer_of data, w).
Proof.
  intros H.
  unfold read_answer, answer_of, bind, lift, load_resp, resp_json, try_except,
    raise, ret.
  rewrite H. destruct (answer_text data) as [txt | e]; [| reflexivity].
  destruct (json_loads_obj txt) as [parsed | e].
  - destruct (isinstance_dict parsed); reflexivity.
  - destruct (is_JSONDecodeError e); reflexivity.
Qed.

(** *** The relay and the handler on a run *)

Lemma call_gemini_run video_bytes mime_type w k o :
  delivers w k o ->
  ((k < 2)%nat -> retryable o = false) ->
  call_gemini_with_video video_bytes mime_type w
  = match last_attempt o with
    | Ok resp => read_answer resp (after (build_payload video_bytes mime_type) w k)
    | Raise e => (Raise e, after (build_payload video_bytes mime_type) w k)
    end.
Proof.
  intros Hd Hstop. unfold call_gemini_with_video, bind.
  rewrite (send_with_retries_delivers _ w k o Hd Hstop).
  destruct (last_attempt o); reflexivity.
Qed.

Lemma files_getitem_contains req name f :
  files_getitem req name = Ok f -> files_contains req name = true.
Proof.
  unfold files_getitem, files_contains.
  destruct (find (fun kv => String.eqb (fst kv) name) (files req)) as [kv |] eqn:E;
    [| discriminate].
  intros _. apply find_some in E as [Hin Hkey].
  apply existsb_exists. eauto.
Qed.

(** The handler on a request that carries a non-empty upload. *)
Lemma evaluate_pitch_relay req f video_bytes w :
  files_getitem req "video" = Ok f ->
  read f = Ok video_bytes ->
  video_bytes <> [] ->
  evaluate_pitch req w
  = match call_gemini_with_video video_bytes (py_or (mimetype f) "video/mp4") w with
    | (Ok parsed, w') => (Ok (jsonify parsed), w')
    | (Raise e, w') => (Ok (evaluation_failed e), w')
    end.
Proof.
  intros Hget Hread Hne.
  unfold evaluate_pitch, try_except, bind, lift, ret.
  rewrite (files_getitem_contains _ _ _ Hget), Hget, Hread.
  destruct video_bytes as [| b bs]; [congruence |].
  cbn [negb bytes_falsy]. cbv beta iota.
  destruct (call_gemini_with_video (b :: bs) (py_or (mimetype f) "video/mp4") w)
    as [[parsed | e] w']; reflexivity.
Qed.

Lemma call_gemini_answered video_bytes mime_type w k r :
  delivers w k (Responds r) ->
  status_code r = 200 ->
  call_gemini_with_video video_bytes mime_type w
  = read_answer (Some r) (after (build_payload video_bytes mime_type) w k).
Proof.
  intros Hd H200.
  rewrite (call_gemini_run _ _ w k (Responds r) Hd).
  - simpl. now rewrite H200.
  - intros _. simpl. now rewrite H200.
Qed.

Lemma call_gemini_refused video_bytes mime_type w k r :
  delivers w k (Responds r) ->
  status_code r <> 200 ->
  ((k < 2)%nat -> status_code r <> 503) ->
  call_gemini_with_video video_bytes mime_type w
  = (Raise (mk_exn RuntimeError
       ("Gemini API error " ++ str_of_int (status_code r) ++ ": "
        ++ slice_to 300 (text r))),
     after (build_payload video_bytes mime_type) w k).
Proof.
  intros Hd H200 H503.
  rewrite (call_gemini_run _ _ w k (Responds r) Hd).
  - simpl. apply Z.eqb_neq in H200. now rewrite H200.
  - intros Hk. simpl. apply Z.eqb_neq. auto.
Qed.

Lemma evaluate_pitch_uploads req f video_bytes w :
  uploads req f video_bytes ->
  fst (evaluate_pitch req w)
  = match fst (call_gemini_with_video video_bytes (py_or (mimetype f) "video/mp4") w) with
    | Ok parsed => Ok (jsonify parsed)
    | Raise e => Ok (evaluation_failed e)
    end.
Proof.
  intros (Hget & Hread & Hne).
  rewrite (evaluate_pitch_relay req f video_bytes w Hget Hread Hne).
  destruct (call_gemini_with_video video_bytes (py_or (mimetype f) "video/mp4") w)
    as [[parsed | e] w']; reflexivity.
Qed.

Lemma slice_to_length n : forall s, (String.length (slice_to n s) <= n)%nat.
Proof.
  unfold slice_to. induction n as [| n IH]; intros s.
  - destruct s; simpl; lia.
  - destruct s as [| c s]; simpl; [lia |]. specialize (IH s). lia.
Qed.

Lemma slice_to_prefix n : forall s, String.prefix (slice_to n s) s = true.
Proof.
  unfold slice_to. induction n as [| n IH]; intros s.
  - destruct s; reflexivity.
  - destruct s as [| c s]; simpl; [reflexivity |].
    rewrite IH. destruct (ascii_dec c c); [reflexivity | congruence].
Qed.

(** *** The claims *)

(** C1: when the first two attempts each meet a retry trigger (status 503,
    or a request timeout) and the third returns 200 with a valid structured
    answer, [call_gemini_with_video] makes exactly three outbound calls,
    sleeps 5 seconds before each retried attempt and returns the answer,
    which the handler sends with status 200.  And in every run of the loop
    the world moves by a number [k <= 2] of retried attempts, each a call
    followed by a 5-second sleep, and one last call: an attempt is retried
    exactly when it meets a retry trigger and is not the third. *)
Theorem retry_twice_then_answer video_bytes mime_type w r data txt answer :
  delivers w 2 (Responds r) ->
  status_code r = 200 ->
  json_loads (text r) = Decoded data ->
  answer_location data = Some (JStr txt) ->
  json_loads txt = Decoded (JDict answer) ->
  call_gemini_with_video video_bytes mime_type w
  = (Ok (JDict answer),
     mk_world (calls w + 3)
       (trace w
        ++ [EvPost url (build_payload video_bytes mime_type) 300; EvSleep 5;
            EvPost url (build_payload video_bytes mime_type) 300; EvSleep 5;
            EvPost url (build_payload video_bytes mime_type) 300]))
  /\ (forall req f,
        uploads req f video_bytes ->
        fst (evaluate_pitch req w) = Ok (mk_http (JDict answer) 200))
  /\ (forall payload w0,
        exists k,
          (k <= 2)%nat
          /\ snd (send_with_retries payload w0) = after payload w0 k
          /\ (forall i, (i < k)%nat -> retryable (upstream (calls w0 + i)) = true)
          /\ ((k < 2)%nat -> retryable (upstream (calls w0 + k)) = false)).
Proof.
  intros Hd H200 Hbody Hloc Htxt.
  apply answer_text_location in Hloc.
  assert (Hrun : forall m,
             call_gemini_with_video video_bytes m w
             = (Ok (JDict answer), after (build_payload video_bytes m) w 2)).
  { intros m. rewrite (call_gemini_answered _ _ w 2 r Hd H200).
    rewrite (read_answer_decoded _ _ data Hbody).
    unfold answer_of. rewrite Hloc. simpl. now rewrite Htxt. }
  split; [| split].
  - rewrite Hrun. unfold after, attempts_trace, retry_events. simpl.
    f_equal. f_equal. lia.
  - intros req f Hup. rewrite (evaluate_pitch_uploads req f video_bytes w Hup).
    now rewrite Hrun.
  - intros payload w0.
    destruct (send_with_retries_total w0) as (k & o & Hd0 & Hstop).
    exists k. rewrite (send_with_retries_delivers payload w0 k o Hd0 Hstop).
    destruct Hd0 as (Hk & Hretry & Hlast). subst o. auto.
Qed.

(** C2: when every attempt meets status 503, the relay makes exactly three
    outbound calls (two of them followed by a 5-second sleep, nothing after
    the third) and raises the error of the third response; the handler
    answers 500 with the tag [evaluation_failed] and that error as message. *)
Theorem always_503_three_attempts video_bytes mime_type w :
  (forall n, exists r, upstream n = Responds r /\ status_code r = 503) ->
  exists r3,
    upstream (calls w + 2) = Responds r3
    /\ call_gemini_with_video video_bytes mime_type w
       = (Raise (mk_exn RuntimeError
            ("Gemini API error 503: " ++ slice_to 300 (text r3))),
          mk_world (calls w + 3)
            (trace w
             ++ [EvPost url (build_payload video_bytes mime_type) 300; EvSleep 5;
                 EvPost url (build_payload video_bytes mime_type) 300; EvSleep 5;
                 EvPost url (build_payload video_bytes mime_type) 300]))
    /\ (forall req f,
          uploads req f video_bytes ->
          fst (evaluate_pitch req w)
          = Ok (mk_http
                  (JDict [("error", JStr "evaluation_failed");
                          ("message",
                           JStr ("Gemini API error 503: "
                                 ++ slice_to 300 (text r3)))])
                  500)).
Proof.
  intros Hall.
  destruct (Hall (calls w + 2)%nat) as (r3 & H3 & S3).
  assert (Hd : delivers w 2 (Responds r3)).
  { split; [lia | split; [| exact H3]].
    intros i _. destruct (Hall (calls w + i)%nat) as (ri & Hi & Si).
    rewrite Hi. simpl. now rewrite Si. }
  assert (Hrun : forall m,
             call_gemini_with_video video_bytes m w
             = (Raise (mk_exn RuntimeError
                  ("Gemini API error 503: " ++ slice_to 300 (text r3))),
                after (build_payload video_bytes m) w 2)).
  { intros m. rewrite (call_gemini_refused _ _ w 2 r3 Hd); [| lia | lia].
    now rewrite S3. }
  exists r3. split; [exact H3 | split].
  - rewrite Hrun. unfold after, attempts_trace, retry_events. simpl.
    f_equal. f_equal. lia.
  - intros req f Hup. rewrite (evaluate_pitch_uploads req f video_bytes w Hup).
    now rewrite Hrun.
Qed.

(** C3: an attempt that meets a status other than 200 and 503 ends the
    call at once: the relay raises an error whose message carries the
    status code and the first 300 characters at most of the body, and the
    world holds no sleep and no call after that attempt. *)
Theorem other_status_fails_at_once video_bytes mime_type w k r :
  delivers w k (Responds r) ->
  status_code r <> 200 ->
  status_code r <> 503 ->
  call_gemini_with_video video_bytes mime_type w
  = (Raise (mk_exn RuntimeError
       ("Gemini API error " ++ str_of_int (status_code r) ++ ": "
        ++ slice_to 300 (text r))),
     mk_world (calls w + k + 1)
       (trace w
        ++ concat (repeat [EvPost url (build_payload video_bytes mime_type) 300;
                           EvSleep 5] k)
        ++ [EvPost url (build_payload video_bytes mime_type) 300]))
  /\ (String.length (slice_to 300 (text r)) <= 300)%nat
  /\ String.prefix (slice_to 300 (text r)) (text r) = true.
Proof.
  intros Hd H200 H503. split; [| split].
  - now rewrite (call_gemini_refused _ _ w k r Hd H200).
  - apply slice_to_length.
  - apply slice_to_prefix.
Qed.

(** C4, as amended: a 200 response whose decoded envelope does not have
    the location [candidates[0].content.parts[0].text] (a key is missing, a
    list is empty, or a value on the way is not of the expected kind) makes
    the relay raise [Unexpected Gemini response format: ...], the text of
    the failed lookup appended; the handler answers 500 with that message. *)
Theorem missing_location_is_format_error video_bytes mime_type w k r data :
  delivers w k (Responds r) ->
  status_code r = 200 ->
  json_loads (text r) = Decoded data ->
  answer_location data = None ->
  exists e,
    answer_text data = Raise e
    /\ call_gemini_with_video video_bytes mime_type w
       = (Raise (mk_exn RuntimeError
            ("Unexpected Gemini response format: " ++ str e)),
          after (build_payload video_bytes mime_type) w k)
    /\ (forall req f,
          uploads req f video_bytes ->
          fst (evaluate_pitch req w)
          = Ok (mk_http
                  (JDict [("error", JStr "evaluation_failed");
                          ("message",
                           JStr ("Unexpected Gemini response format: " ++ str e))])
                  500)).
Proof.
  intros Hd H200 Hbody Hloc.
  destruct (answer_text_absent data Hloc) as [e He].
  assert (Hrun : forall m,
             call_gemini_with_video video_bytes m w
             = (Raise (mk_exn RuntimeError
                  ("Unexpected Gemini response format: " ++ str e)),
                after (build_payload video_bytes m) w k)).
  { intros m. rewrite (call_gemini_answered _ _ w k r Hd H200).
    rewrite (read_answer_decoded _ _ data Hbody).
    unfold answer_of. now rewrite He. }
  exists e. split; [exact He | split].
  - apply Hrun.
  - intros req f Hup. rewrite (evaluate_pitch_uploads req f video_bytes w Hup).
    now rewrite Hrun.
Qed.

(** A value at the location that is not a [str] passes the lookup;
    [json.loads] then raises a [TypeError], which no handler of the relay
    catches: the envelope has the location, and what it holds is no text. *)
Lemma non_text_answer_type_error video_bytes mime_type w k r data v :
  delivers w k (Responds r) ->
  status_code r = 200 ->
  json_loads (text r) = Decoded data ->
  answer_location data = Some v ->
  (forall s, v <> JStr s) ->
  call_gemini_with_video video_bytes mime_type w
  = (Raise (mk_exn TypeError
       ("the JSON object must be str, bytes or bytearray, not " ++ class_name v)),
     after (build_payload video_bytes mime_type) w k).
Proof.
  intros Hd H200 Hbody Hloc Hv.
  apply answer_text_location in Hloc.
  rewrite (call_gemini_answered _ _ w k r Hd H200).
  rewrite (read_answer_decoded _ _ data Hbody).
  unfold answer_of. rewrite Hloc.
  destruct v; try reflexivity. now destruct (Hv s).
Qed.

(** C5: with the answer text [txt] extracted from a 200 response: if
    [txt] does not decode, the relay raises [Gemini did not return valid
    JSON: ...]; if it decodes to a value that is not a [dict], the relay
    raises [Gemini JSON root must be an object]; if it decodes to a
    [dict], the relay returns that [dict] as decoded, whatever its items. *)
Theorem answer_text_decoding video_bytes mime_type w k r data txt :
  delivers w k (Responds r) ->
  status_code r = 200 ->
  json_loads (text r) = Decoded data ->
  answer_location data = Some (JStr txt) ->
  (forall msg,
      json_loads txt = DecodeError msg ->
      call_gemini_with_video video_bytes mime_type w
      = (Raise (mk_exn RuntimeError ("Gemini did not return valid JSON: " ++ msg)),
         after (build_payload video_bytes mime_type) w k))
  /\ (forall v,
        json_loads txt = Decoded v ->
        isinstance_dict v = false ->
        call_gemini_with_video video_bytes mime_type w
        = (Raise (mk_exn RuntimeError "Gemini JSON root must be an object"),
           after (build_payload video_bytes mime_type) w k))
  /\ (forall items,
        json_loads txt = Decoded (JDict items) ->
        call_gemini_with_video video_bytes mime_type w
        = (Ok (JDict items), after (build_payload video_bytes mime_type) w k)).
Proof.
  intros Hd H200 Hbody Hloc.
  apply answer_text_location in Hloc.
  rewrite (call_gemini_answered _ _ w k r Hd H200).
  rewrite (read_answer_decoded _ _ data Hbody).
  unfold answer_of. rewrite Hloc. simpl json_loads_obj.
  split; [| split].
  - intros msg Hdec. now rewrite Hdec.
  - intros v Hdec Hroot. now rewrite Hdec, Hroot.
  - intros items Hdec. now rewrite Hdec.
Qed.

Lemma evaluate_pitch_missing req w :
  files_contains req "video" = false ->
  evaluate_pitch req w
  = (Ok (mk_http (JDict [("error", JStr "missing 'video' file field")]) 400), w).
Proof.
  intros Hno. unfold evaluate_pitch, try_except, ret. now rewrite Hno.
Qed.

Lemma evaluate_pitch_empty req f w :
  files_getitem req "video" = Ok f ->
  read f = Ok [] ->
  evaluate_pitch req w
  = (Ok (mk_http (JDict [("error", JStr "empty video payload")]) 400), w).
Proof.
  intros Hget Hread.
  unfold evaluate_pitch, try_except, bind, lift, ret.
  now rewrite (files_getitem_contains _ _ _ Hget), Hget, Hread.
Qed.

(** C6: a request without the field [video] is answered 400 with
    [{"error": "missing 'video' file field"}]; a request whose [video]
    file reads as no bytes is answered 400 with
    [{"error": "empty video payload"}], whatever its media type; in both
    cases the world is left as it was: no outbound call is made. *)
Theorem missing_or_empty_upload req w :
  (files_contains req "video" = false ->
   evaluate_pitch req w
   = (Ok (mk_http (JDict [("error", JStr "missing 'video' file field")]) 400), w))
  /\ (forall f,
        files_getitem req "video" = Ok f ->
        read f = Ok [] ->
        evaluate_pitch req w
        = (Ok (mk_http (JDict [("error", JStr "empty video payload")]) 400), w)).
Proof.
  split.
  - apply evaluate_pitch_missing.
  - intros f Hget Hread. exact (evaluate_pitch_empty req f w Hget Hread).
Qed.

Lemma files_contains_getitem req name :
  files_contains req name = true -> exists f, files_getitem req name = Ok f.
Proof.
  unfold files_contains, files_getitem. intros Hex.
  apply existsb_exists in Hex as (kv & Hin & Hkey).
  destruct (find (fun kv => String.eqb (fst kv) name) (files req)) as [kv' |] eqn:E.
  - eauto.
  - apply (find_none _ _ E) in Hin. congruence.
Qed.

(** C7: the handler always returns a response, with status 200, 400 or
    500.  On a request that carries a non-empty upload it returns what the
    relay returned, unchanged, with status 200 when the relay succeeds, and
    500 with [{"error": "evaluation_failed", "message": str(e)}] when the
    relay raises [e]; an exception raised while the upload is read gets
    the same 500 response. *)
Theorem evaluate_pitch_never_raises req w :
  exists resp w',
    evaluate_pitch req w = (Ok resp, w')
    /\ (status resp = 200 \/ status resp = 400 \/ status resp = 500)
    /\ (forall f video_bytes,
          uploads req f video_bytes ->
          match call_gemini_with_video video_bytes
                  (py_or (mimetype f) "video/mp4") w with
          | (Ok parsed, w1) => resp = mk_http parsed 200 /\ w' = w1
          | (Raise e, w1) =>
              resp = mk_http (JDict [("error", JStr "evaluation_failed");
                                     ("message", JStr (str e))]) 500
              /\ w' = w1
          end)
    /\ (forall f e,
          files_getitem req "video" = Ok f ->
          read f = Raise e ->
          resp = mk_http (JDict [("error", JStr "evaluation_failed");
                                 ("message", JStr (str e))]) 500).
Proof.
  destruct (files_contains req "video") eqn:Hc.
  - destruct (files_contains_getitem _ _ Hc) as [f Hget].
    destruct (read f) as [[| b bs] | e] eqn:Hread.
    + eexists; eexists. split; [| split; [| split]].
      * exact (evaluate_pitch_empty req f w Hget Hread).
      * simpl. auto.
      * intros f' vb (Hget' & Hread' & Hne). congruence.
      * intros f' e' Hget' Hread'. congruence.
    + pose proof (evaluate_pitch_relay req f (b :: bs) w Hget Hread) as Hrun.
      assert (Hne : b :: bs <> []) by discriminate. specialize (Hrun Hne).
      destruct (call_gemini_with_video (b :: bs) (py_or (mimetype f) "video/mp4") w)
        as [[parsed | e] w1] eqn:Hcall.
      * eexists; eexists. split; [exact Hrun | split; [| split]].
        -- simpl. auto.
        -- intros f' vb (Hget' & Hread' & _).
           assert (f' = f) by congruence. subst f'.
           assert (vb = b :: bs) by congruence. subst vb.
           now rewrite Hcall.
        -- intros f' e' Hget' Hread'. congruence.
      * eexists; eexists. split; [exact Hrun | split; [| split]].
        -- simpl. auto.
        -- intros f' vb (Hget' & Hread' & _).
           assert (f' = f) by congruence. subst f'.
           assert (vb = b :: bs) by congruence. subst vb.
           now rewrite Hcall.
        -- intros f' e' Hget' Hread'. congruence.
    + eexists; eexists. split; [| split; [| split]].
      * unfold evaluate_pitch, try_except, bind, lift, ret.
        rewrite Hc, Hget, Hread. reflexivity.
      * simpl. auto.
      * intros f' vb (Hget' & Hread' & _). congruence.
      * intros f' e' Hget' Hread'.
        assert (f' = f) by congruence. subst f'.
        assert (e' = e) by congruence. subst e'. reflexivity.
  - eexists; eexists. split; [| split; [| split]].
    + apply (evaluate_pitch_missing req w Hc).
    + simpl. auto.
    + intros f vb (Hget & _). apply files_getitem_contains in Hget. congruence.
    + intros f e Hget _. apply files_getitem_contains in Hget. congruence.
Qed.

Lemma read_answer_world resp w : snd (read_answer resp w) = w.
Proof.
  destruct resp as [r |]; [| reflexivity].
  destruct (json_loads (text r)) as [data | msg] eqn:E.
  - now rewrite (read_answer_decoded r w data E).
  - now rewrite (read_answer_undecodable r w msg E).
Qed.

(** The calls of one run of the relay all carry the payload built from
    its arguments. *)
Lemma call_gemini_world video_bytes mime_type w :
  exists k,
    (k <= 2)%nat
    /\ snd (call_gemini_with_video video_bytes mime_type w)
       = after (build_payload video_bytes mime_type) w k.
Proof.
  destruct (send_with_retries_total w) as (k & o & Hd & Hstop).
  exists k. split; [apply Hd |].
  rewrite (call_gemini_run _ _ w k o Hd Hstop).
  destruct (last_attempt o); [apply read_answer_world | reflexivity].
Qed.

Lemma media_tag_build_payload video_bytes mime_type :
  media_tag (build_payload video_bytes mime_type) = Ok (JStr mime_type).
Proof. reflexivity. Qed.


(** C9: when the retry loop ends without an exception, so that control
    reaches [resp.json()], the variable [resp] is bound to the response of
    the last attempt made and its status is 200: the loop was left by
    [break].  Every run that stops on anything else than a 200 response (a
    status other than 200 and 503, a 503 or a timeout on the third attempt,
    an exception of [requests.post] that is not a timeout) raises from the
    loop, and the relay raises with it. *)
Theorem extraction_reads_a_200_response video_bytes mime_type w :
  (forall res w',
      send_with_retries (build_payload video_bytes mime_type) w = (Ok res, w') ->
      exists k r,
        delivers w k (Responds r)
        /\ status_code r = 200
        /\ res = Some r
        /\ load_resp res = Ok r
        /\ w' = after (build_payload video_bytes mime_type) w k)
  /\ (forall k o,
        delivers w k o ->
        ((k < 2)%nat -> retryable o = false) ->
        (forall r, o = Responds r -> status_code r <> 200) ->
        exists e,
          last_attempt o = Raise e
          /\ send_with_retries (build_payload video_bytes mime_type) w
             = (Raise e, after (build_payload video_bytes mime_type) w k)
          /\ call_gemini_with_video video_bytes mime_type w
             = (Raise e, after (build_payload video_bytes mime_type) w k)).
Proof.
  split.
  - intros res w' Hrun.
    destruct (send_with_retries_total w) as (k & o & Hd & Hstop).
    rewrite (send_with_retries_delivers _ w k o Hd Hstop) in Hrun.
    inversion Hrun as [[Hlast Hw]]. clear Hrun.
    destruct o as [r | e]; simpl in Hlast.
    + destruct (status_code r =? 200) eqn:E200; [| discriminate].
      inversion Hlast; subst res. apply Z.eqb_eq in E200.
      exists k, r. auto.
    + destruct (is_Timeout e); discriminate.
  - intros k o Hd Hstop Hnot.
    assert (Hraise : exists e, last_attempt o = Raise e).
    { destruct o as [r | e]; simpl.
      - specialize (Hnot r eq_refl). apply Z.eqb_neq in Hnot. rewrite Hnot. eauto.
      - destruct (is_Timeout e); eauto. }
    destruct Hraise as [e He]. exists e. split; [exact He | split].
    + now rewrite (send_with_retries_delivers _ w k o Hd Hstop), He.
    + now rewrite (call_gemini_run _ _ w k o Hd Hstop), He.
Qed.

(** C10: a 200 response whose body does not decode makes [resp.json()]
    raise a [JSONDecodeError] that leaves the relay as it is, with the
    decoder's message: it is not a [RuntimeError], so neither of the two
    wrapped errors; the handler still answers 500 with the tag
    [evaluation_failed] and that message. *)
Theorem undecodable_body_is_not_wrapped video_bytes mime_type w k r msg :
  delivers w k (Responds r) ->
  status_code r = 200 ->
  json_loads (text r) = DecodeError msg ->
  call_gemini_with_video video_bytes mime_type w
  = (Raise (mk_exn JSONDecodeError msg),
     after (build_payload video_bytes mime_type) w k)
  /\ is_RuntimeError (mk_exn JSONDecodeError msg) = false
  /\ str (mk_exn JSONDecodeError msg) = msg
  /\ (forall req f,
        uploads req f video_bytes ->
        fst (evaluate_pitch req w)
        = Ok (mk_http
                (JDict [("error", JStr "evaluation_failed"); ("message", JStr msg)])
                500)).
Proof.
  intros Hd H200 Hbody.
  assert (Hrun : forall m,
             call_gemini_with_video video_bytes m w
             = (Raise (mk_exn JSONDecodeError msg),
                after (build_payload video_bytes m) w k)).
  { intros m. rewrite (call_gemini_answered _ _ w k r Hd H200).
    apply (read_answer_undecodable _ _ _ Hbody). }
  split; [apply Hrun | split; [reflexivity | split; [reflexivity |]]].
  intros req f Hup. rewrite (evaluate_pitch_uploads req f video_bytes w Hup).
  now rewrite Hrun.
Qed.

(** *** Further properties of the relay and the handler *)

(** The seconds slept in a trace. *)
Definition slept (t : list event) : Z :=
  fold_right (fun ev acc => match ev with EvSleep n => n + acc | EvPost _ _ _ => acc end)
    0 t.

(** [payload["contents"][0]["parts"][1]["inline_data"]["data"]]: the
    media of an outbound request. *)
Definition media_data (payload : json) : result json :=
  bind_result (getitem payload (KStr "contents")) (fun v1 =>
  bind_result (getitem v1 (KInt 0)) (fun v2 =>
  bind_result (getitem v2 (KStr "parts")) (fun v3 =>
  bind_result (getitem v3 (KInt 1)) (fun v4 =>
  bind_result (getitem v4 (KStr "inline_data")) (fun v5 =>
  getitem v5 (KStr "data")))))).

(** The four ways through the handler. *)
Lemma evaluate_pitch_cases req w :
  (files_contains req "video" = false
   /\ evaluate_pitch req w
      = (Ok (mk_http (JDict [("error", JStr "missing 'video' file field")]) 400), w))
  \/ (exists f,
        files_getitem req "video" = Ok f /\ read f = Ok []
        /\ evaluate_pitch req w
           = (Ok (mk_http (JDict [("error", JStr "empty video payload")]) 400), w))
  \/ (exists f e,
        files_getitem req "video" = Ok f /\ read f = Raise e
        /\ evaluate_pitch req w = (Ok (evaluation_failed e), w))
  \/ (exists f video_bytes,
        uploads req f video_bytes
        /\ evaluate_pitch req w
           = match call_gemini_with_video video_bytes
                     (py_or (mimetype f) "video/mp4") w with
             | (Ok parsed, w') => (Ok (jsonify parsed), w')
             | (Raise e, w') => (Ok (evaluation_failed e), w')
             end).
Proof.
  destruct (files_contains req "video") eqn:Hc.
  - destruct (files_contains_getitem _ _ Hc) as [f Hget].
    destruct (read f) as [[| b bs] | e] eqn:Hread.
    + right; left. exists f.
      split; [exact Hget | split; [exact Hread |]].
      exact (evaluate_pitch_empty req f w Hget Hread).
    + right; right; right. exists f, (b :: bs).
      assert (Hne : b :: bs <> []) by discriminate.
      split; [repeat split; assumption |].
      exact (evaluate_pitch_relay req f (b :: bs) w Hget Hread Hne).
    + right; right; left. exists f, e. repeat split; try assumption.
      unfold evaluate_pitch, try_except, bind, lift, ret.
      now rewrite Hc, Hget, Hread.
  - left. split; [reflexivity |]. exact (evaluate_pitch_missing req w Hc).
Qed.

Lemma posts_attempts_trace payload k :
  length (posts (attempts_trace payload k)) = S k.
Proof.
  unfold attempts_trace. induction k as [| k IH]; [reflexivity |].
  simpl. now rewrite IH.
Qed.

Lemma slept_attempts_trace payload k :
  slept (attempts_trace payload k) = 5 * Z.of_nat k.
Proof.
  unfold attempts_trace. induction k as [| k IH]; [reflexivity |].
  cbn [repeat concat retry_events app slept fold_right].
  change (fold_right _ 0 ?t) with (slept t). rewrite IH. lia.
Qed.

Lemma read_answer_fst resp w w' :
  fst (read_answer resp w) = fst (read_answer resp w').
Proof.
  destruct resp as [r |]; [| reflexivity].
  destruct (json_loads (text r)) as [data | msg] eqn:E.
  - now rewrite !(read_answer_decoded r _ data E).
  - now rewrite !(read_answer_undecodable r _ msg E).
Qed.

(** X1: a timeout on the third attempt, after two retried attempts, ends
    the call with [Gemini API request timed out after retries]: three
    outbound calls, two sleeps; the message of the timeout itself is
    dropped, and the handler answers 500. *)
Theorem final_timeout_is_surfaced video_bytes mime_type w e :
  delivers w 2 (Fails e) ->
  is_Timeout e = true ->
  call_gemini_with_video video_bytes mime_type w
  = (Raise (mk_exn RuntimeError "Gemini API request timed out after retries"),
     mk_world (calls w + 3)
       (trace w
        ++ [EvPost url (build_payload video_bytes mime_type) 300; EvSleep 5;
            EvPost url (build_payload video_bytes mime_type) 300; EvSleep 5;
            EvPost url (build_payload video_bytes mime_type) 300]))
  /\ (forall req f,
        uploads req f video_bytes ->
        fst (evaluate_pitch req w)
        = Ok (mk_http
                (JDict [("error", JStr "evaluation_failed");
                        ("message", JStr "Gemini API request timed out after retries")])
                500)).
Proof.
  intros Hd Ht.
  assert (Hrun : forall m,
             call_gemini_with_video video_bytes m w
             = (Raise (mk_exn RuntimeError "Gemini API request timed out after retries"),
                after (build_payload video_bytes m) w 2)).
  { intros m. rewrite (call_gemini_run _ _ w 2 (Fails e) Hd) by lia.
    simpl. now rewrite Ht. }
  split.
  - rewrite Hrun. unfold after, attempts_trace, retry_events. simpl.
    f_equal. f_equal. lia.
  - intros req f Hup. rewrite (evaluate_pitch_uploads req f video_bytes w Hup).
    now rewrite Hrun.
Qed.

(** X2: an exception of [requests.post] that is not a timeout is never
    retried: at whatever attempt it comes, the relay raises it as it is,
    with no sleep and no call after it, and the handler answers 500 with
    its text as message. *)
Theorem transport_error_is_not_retried video_bytes mime_type w k e :
  delivers w k (Fails e) ->
  is_Timeout e = false ->
  call_gemini_with_video video_bytes mime_type w
  = (Raise e,
     mk_world (calls w + k + 1)
       (trace w
        ++ concat (repeat [EvPost url (build_payload video_bytes mime_type) 300;
                           EvSleep 5] k)
        ++ [EvPost url (build_payload video_bytes mime_type) 300]))
  /\ (forall req f,
        uploads req f video_bytes ->
        fst (evaluate_pitch req w)
        = Ok (mk_http
                (JDict [("error", JStr "evaluation_failed");
                        ("message", JStr (str e))])
                500)).
Proof.
  intros Hd Ht.
  assert (Hrun : forall m,
             call_gemini_with_video video_bytes m w
             = (Raise e, after (build_payload video_bytes m) w k)).
  { intros m. rewrite (call_gemini_run _ _ w k (Fails e) Hd) by (intros _; exact Ht).
    simpl. now rewrite Ht. }
  split.
  - apply Hrun.
  - intros req f Hup. rewrite (evaluate_pitch_uploads req f video_bytes w Hup).
    now rewrite Hrun.
Qed.

(** X3: when the envelope of a 200 response holds, at the answer-text
    location, a value that is not a [str], the lookup succeeds and
    [json.loads] raises a [TypeError] that neither [except] clause of the
    relay catches: it reaches the handler unwrapped, which answers 500 with
    [the JSON object must be str, bytes or bytearray, not <class>]. *)
Theorem non_text_answer_reaches_the_handler video_bytes mime_type w k r data v :
  delivers w k (Responds r) ->
  status_code r = 200 ->
  json_loads (text r) = Decoded data ->
  answer_location data = Some v ->
  (forall s, v <> JStr s) ->
  fst (call_gemini_with_video video_bytes mime_type w)
  = Raise (mk_exn TypeError
      ("the JSON object must be str, bytes or bytearray, not " ++ class_name v))
  /\ is_RuntimeError
       (mk_exn TypeError
          ("the JSON object must be str, bytes or bytearray, not " ++ class_name v))
     = false
  /\ (forall req f,
        uploads req f video_bytes ->
        fst (evaluate_pitch req w)
        = Ok (mk_http
                (JDict [("error", JStr "evaluation_failed");
                        ("message",
                         JStr ("the JSON object must be str, bytes or bytearray, not "
                               ++ class_name v))])
                500)).
Proof.
  intros Hd H200 Hbody Hloc Hv.
  split; [| split; [reflexivity |]].
  - now rewrite (non_text_answer_type_error _ _ w k r data v Hd H200 Hbody Hloc Hv).
  - intros req f Hup. rewrite (evaluate_pitch_uploads req f video_bytes w Hup).
    now rewrite (non_text_answer_type_error _ _ w k r data v Hd H200 Hbody Hloc Hv).
Qed.

Lemma attempts_trace_events payload k :
  Forall (fun ev => match ev with
                    | EvPost u p t => u = url /\ p = payload /\ t = 300
                    | EvSleep n => n = 5
                    end)
    (attempts_trace payload k).
Proof.
  unfold attempts_trace. induction k as [| k IH].
  - repeat constructor.
  - simpl. repeat constructor. exact IH.
Qed.

(** The world after the handler: as it was, or moved by one run of the
    relay on the upload. *)
Lemma evaluate_pitch_world req w :
  snd (evaluate_pitch req w) = w
  \/ exists f video_bytes k,
       uploads req f video_bytes /\ (k <= 2)%nat
       /\ snd (evaluate_pitch req w)
          = after (build_payload video_bytes (py_or (mimetype f) "video/mp4")) w k.
Proof.
  destruct (evaluate_pitch_cases req w)
    as [(_ & H) | [(f & _ & _ & H) | [(f & e & _ & _ & H) | (f & vb & Hup & H)]]];
    try (left; now rewrite H).
  right.
  destruct (call_gemini_world vb (py_or (mimetype f) "video/mp4") w) as (k & Hk & Hw).
  exists f, vb, k. split; [exact Hup | split; [exact Hk |]].
  rewrite H.
  destruct (call_gemini_with_video vb (py_or (mimetype f) "video/mp4") w)
    as [[parsed | e] w1]; exact Hw.
Qed.

(** X4: whatever the request and the service, the handler makes at most
    three outbound calls, all to the same URL with a timeout of 300 seconds,
    and sleeps 5 seconds between two calls and at no other time (10 seconds
    at most); the call counter moves by the number of calls made. *)
Theorem evaluate_pitch_call_budget req w :
  exists new : list event,
    trace (snd (evaluate_pitch req w)) = (trace w ++ new)%list
    /\ calls (snd (evaluate_pitch req w)) = (calls w + length (posts new))%nat
    /\ (length (posts new) <= 3)%nat
    /\ slept new = 5 * Z.of_nat (pred (length (posts new)))
    /\ Forall (fun ev => match ev with
                         | EvPost u _ t => u = url /\ t = 300
                         | EvSleep n => n = 5
                         end) new.
Proof.
  destruct (evaluate_pitch_world req w) as [H | (f & vb & k & _ & Hk & H)];
    rewrite H.
  - exists []. rewrite app_nil_r. simpl.
    repeat split; try lia. constructor.
  - exists (attempts_trace (build_payload vb (py_or (mimetype f) "video/mp4")) k).
    rewrite posts_attempts_trace, slept_attempts_trace. simpl.
    repeat split; try lia.
    eapply Forall_impl; [| apply attempts_trace_events].
    intros [u p t | n]; tauto.
Qed.

(** The relay returns only what it decoded from the answer text of a 200
    response, and only if that is a [dict]. *)
Lemma call_gemini_ok video_bytes mime_type w parsed w' :
  call_gemini_with_video video_bytes mime_type w = (Ok parsed, w') ->
  exists k r data txt items,
    delivers w k (Responds r)
    /\ status_code r = 200
    /\ json_loads (text r) = Decoded data
    /\ answer_location data = Some (JStr txt)
    /\ json_loads txt = Decoded (JDict items)
    /\ parsed = JDict items
    /\ w' = after (build_payload video_bytes mime_type) w k.
Proof.
  intros Hrun.
  destruct (send_with_retries_total w) as (k & o & Hd & Hstop).
  rewrite (call_gemini_run _ _ w k o Hd Hstop) in Hrun.
  destruct o as [r | e]; simpl in Hrun.
  - destruct (status_code r =? 200) eqn:E200; [| discriminate].
    apply Z.eqb_eq in E200.
    destruct (json_loads (text r)) as [data | msg] eqn:Ebody.
    + rewrite (read_answer_decoded r _ data Ebody) in Hrun.
      inversion Hrun as [[Hans Hw]]. clear Hrun.
      unfold answer_of in Hans.
      destruct (answer_text data) as [v | e] eqn:Etxt; [| discriminate].
      apply answer_text_location in Etxt.
      destruct v as [| | | | txt | |]; simpl in Hans; try discriminate.
      destruct (json_loads txt) as [x | msg] eqn:Edec; simpl in Hans; [| discriminate].
      destruct x as [| | | | | | items]; simpl in Hans; try discriminate.
      inversion Hans; subst parsed.
      exists k, r, data, txt, items. repeat split; try assumption; apply Hd.
    + rewrite (read_answer_undecodable r _ msg Ebody) in Hrun. discriminate.
  - destruct (is_Timeout e); discriminate.
Qed.

(** X5: the handler answers 200 only with a [dict] that the decoder read
    from the answer text of a 200 response of the service, reached after
    retried attempts only, on a request that carries a non-empty upload. *)
Theorem status_200_means_upstream_object req w resp w' :
  evaluate_pitch req w = (Ok resp, w') ->
  status resp = 200 ->
  exists f video_bytes k r data txt items,
    uploads req f video_bytes
    /\ delivers w k (Responds r)
    /\ status_code r = 200
    /\ json_loads (text r) = Decoded data
    /\ answer_location data = Some (JStr txt)
    /\ json_loads txt = Decoded (JDict items)
    /\ body resp = JDict items
    /\ w' = after (build_payload video_bytes (py_or (mimetype f) "video/mp4")) w k.
Proof.
  intros Hrun H200.
  destruct (evaluate_pitch_cases req w)
    as [(_ & H) | [(f & _ & _ & H) | [(f & e & _ & _ & H) | (f & vb & Hup & H)]]];
    rewrite H in Hrun.
  - inversion Hrun; subst. discriminate.
  - inversion Hrun; subst. discriminate.
  - inversion Hrun; subst. discriminate.
  - destruct (call_gemini_with_video vb (py_or (mimetype f) "video/mp4") w)
      as [[parsed | e] w1] eqn:Hcall.
    + inversion Hrun; subst.
      destruct (call_gemini_ok _ _ _ _ _ Hcall)
        as (k & r & data & txt & items & Hd & Hs & Hb & Hl & Ht & Hp & Hw).
      exists f, vb, k, r, data, txt, items. subst parsed. repeat split; try assumption;
        apply Hup || apply Hd.
    + inversion Hrun; subst. discriminate.
Qed.

(** X6: the handler answers 400 exactly when the request has no [video]
    field or its [video] file reads as no bytes; it then leaves the world as
    it was. *)
Theorem status_400_iff_no_usable_upload req w resp w' :
  evaluate_pitch req w = (Ok resp, w') ->
  (status resp = 400
   <-> files_contains req "video" = false
       \/ exists f, files_getitem req "video" = Ok f /\ read f = Ok [])
  /\ (status resp = 400 -> w' = w).
Proof.
  intros Hrun.
  destruct (evaluate_pitch_cases req w)
    as [(Hc & H) | [(f & Hget & Hread & H) | [(f & e & Hget & Hread & H)
                                             | (f & vb & (Hget & Hread & Hne) & H)]]];
    rewrite H in Hrun.
  - inversion Hrun; subst. repeat split; auto.
  - inversion Hrun; subst. repeat split; eauto.
  - inversion Hrun; subst. simpl. split; [split |]; try discriminate.
    intros [Hc | (f' & Hget' & Hread')].
    + apply files_getitem_contains in Hget. congruence.
    + congruence.
  - assert (Hno : ~ (files_contains req "video" = false
                     \/ exists f', files_getitem req "video" = Ok f' /\ read f' = Ok [])).
    { intros [Hc | (f' & Hget' & Hread')].
      - apply files_getitem_contains in Hget. congruence.
      - congruence. }
    destruct (call_gemini_with_video vb (py_or (mimetype f) "video/mp4") w)
      as [[parsed | e] w1]; inversion Hrun; subst; simpl;
      (split; [split |]; try discriminate; intros Hcond; now destruct (Hno Hcond)).
Qed.

(** X7: a declared media type that is not empty is forwarded as it is,
    whatever it says: every outbound call of the handler carries it as the
    media tag. *)
Theorem declared_media_type_is_forwarded req f video_bytes w declared :
  uploads req f video_bytes ->
  mimetype f = Some declared ->
  declared <> "" ->
  exists k,
    (k <= 2)%nat
    /\ snd (evaluate_pitch req w) = after (build_payload video_bytes declared) w k
    /\ media_tag (build_payload video_bytes declared) = Ok (JStr declared).
Proof.
  intros (Hget & Hread & Hne) Hmime Hdecl.
  assert (Hor : py_or (mimetype f) "video/mp4" = declared).
  { rewrite Hmime. destruct declared; [congruence | reflexivity]. }
  destruct (call_gemini_world video_bytes declared w) as (k & Hk & Hw).
  exists k. split; [exact Hk | split; [| apply media_tag_build_payload]].
  rewrite (evaluate_pitch_relay req f video_bytes w Hget Hread Hne), Hor.
  destruct (call_gemini_with_video video_bytes declared w) as [[parsed | e] w1];
    exact Hw.
Qed.

(** X8: a response with status 500 always carries the body
    [{"error": "evaluation_failed", "message": str(e)}] of an exception [e]
    raised while the upload was read or by the relay. *)
Theorem status_500_carries_the_exception req w resp w' :
  evaluate_pitch req w = (Ok resp, w') ->
  status resp = 500 ->
  exists e,
    resp = mk_http (JDict [("error", JStr "evaluation_failed");
                           ("message", JStr (str e))]) 500
    /\ ((exists f, files_getitem req "video" = Ok f /\ read f = Raise e /\ w' = w)
        \/ (exists f video_bytes,
               uploads req f video_bytes
               /\ call_gemini_with_video video_bytes
                    (py_or (mimetype f) "video/mp4") w = (Raise e, w'))).
Proof.
  intros Hrun H500.
  destruct (evaluate_pitch_cases req w)
    as [(_ & H) | [(f & _ & _ & H) | [(f & e & Hget & Hread & H) | (f & vb & Hup & H)]]];
    rewrite H in Hrun.
  - inversion Hrun; subst. discriminate.
  - inversion Hrun; subst. discriminate.
  - inversion Hrun; subst. exists e. split; [reflexivity |]. left. eauto.
  - destruct (call_gemini_with_video vb (py_or (mimetype f) "video/mp4") w)
      as [[parsed | e] w1] eqn:Hcall; inversion Hrun; subst.
    + discriminate.
    + exists e. split; [reflexivity |]. right. eauto.
Qed.

Lemma find_first_video (pre post : list (string * FileStorage)) f :
  (forall kv, In kv pre -> fst kv <> "video") ->
  find (fun kv => String.eqb (fst kv) "video") (pre ++ ("video", f) :: post)
  = Some ("video", f).
Proof.
  induction pre as [| kv pre IH]; intros Hpre; [reflexivity |].
  cbn [app find].
  assert (Hkv : String.eqb (fst kv) "video" = false).
  { apply String.eqb_neq. apply Hpre. now left. }
  rewrite Hkv. apply IH. intros kv' Hin. apply Hpre. now right.
Qed.

(** X9: the handler reads the first file of the field [video] and
    nothing else of the form: fields of other names before it, and whatever
    follows it (more [video] files included), change neither the response
    nor the outbound calls. *)
Theorem other_fields_are_ignored (pre post : list (string * FileStorage)) f w :
  (forall kv, In kv pre -> fst kv <> "video") ->
  evaluate_pitch (mk_request (pre ++ ("video", f) :: post)) w
  = evaluate_pitch (mk_request [("video", f)]) w.
Proof.
  intros Hpre.
  assert (Hget : files_getitem (mk_request (pre ++ ("video", f) :: post)) "video"
                 = Ok f).
  { unfold files_getitem. cbn [files]. now rewrite (find_first_video pre post f Hpre). }
  assert (Hget1 : files_getitem (mk_request [("video", f)]) "video" = Ok f)
    by reflexivity.
  unfold evaluate_pitch.
  rewrite (files_getitem_contains _ _ _ Hget), (files_getitem_contains _ _ _ Hget1).
  now rewrite Hget, Hget1.
Qed.

(** X10: what the caller reads when the envelope of a 200 response is
    short of the answer text: the missing key in quotes when the envelope
    has no [candidates], or the first part no [text]; [list index out of
    range] when [candidates] is empty; the interpreter's complaint when the
    envelope is a list; each after [Unexpected Gemini response format: ]. *)
Theorem envelope_edge_messages video_bytes mime_type w k r data :
  delivers w k (Responds r) ->
  status_code r = 200 ->
  json_loads (text r) = Decoded data ->
  (forall top,
      data = JDict top -> dict_get top "candidates" = None ->
      fst (call_gemini_with_video video_bytes mime_type w)
      = Raise (mk_exn RuntimeError "Unexpected Gemini response format: 'candidates'"))
  /\ (forall top,
        data = JDict top -> dict_get top "candidates" = Some (JList []) ->
        fst (call_gemini_with_video video_bytes mime_type w)
        = Raise (mk_exn RuntimeError
                   "Unexpected Gemini response format: list index out of range"))
  /\ (forall top candidate rest content part rest',
        data = JDict top ->
        dict_get top "candidates" = Some (JList (JDict candidate :: rest)) ->
        dict_get candidate "content" = Some (JDict content) ->
        dict_get content "parts" = Some (JList (JDict part :: rest')) ->
        dict_get part "text" = None ->
        fst (call_gemini_with_video video_bytes mime_type w)
        = Raise (mk_exn RuntimeError "Unexpected Gemini response format: 'text'"))
  /\ (forall items,
        data = JList items ->
        fst (call_gemini_with_video video_bytes mime_type w)
        = Raise (mk_exn RuntimeError
                   "Unexpected Gemini response format: list indices must be integers or slices, not str")).
Proof.
  intros Hd H200 Hbody.
  rewrite (call_gemini_answered _ _ w k r Hd H200).
  rewrite (read_answer_decoded _ _ data Hbody).
  unfold answer_of, answer_text, bind_result.
  split; [| split; [| split]].
  - intros top -> Hc. cbn [fst getitem]. now rewrite Hc.
  - intros top -> Hc. cbn [fst getitem]. now rewrite Hc.
  - intros top candidate rest content part rest' -> H1 H2 H3 H4.
    cbn [fst getitem]. rewrite H1. cbn [getitem List.length].
    rewrite seq_index_0. cbn [Z.to_nat nth_error getitem].
    rewrite H2. cbn [getitem]. rewrite H3. cbn [getitem List.length].
    rewrite seq_index_0. cbn [Z.to_nat nth_error getitem].
    now rewrite H4.
  - intros items ->. reflexivity.
Qed.

Lemma slice_to_short n : forall s, (String.length s <= n)%nat -> slice_to n s = s.
Proof.
  unfold slice_to. induction n as [| n IH]; intros s Hlen.
  - destruct s; simpl in *; [reflexivity | lia].
  - destruct s as [| c s]; simpl in *; [reflexivity |]. rewrite IH; [reflexivity | lia].
Qed.

Lemma slice_to_length_min n : forall s,
  String.length (slice_to n s) = Nat.min n (String.length s).
Proof.
  unfold slice_to. induction n as [| n IH]; intros s.
  - destruct s; reflexivity.
  - destruct s as [| c s]; simpl; [reflexivity |]. now rewrite IH.
Qed.

(** X11: the error raised on a status other than 200 and 503 quotes the
    whole body when it has 300 characters at most, and its first 300
    characters exactly when it is longer. *)
Theorem error_snippet_is_exact video_bytes mime_type w k r :
  delivers w k (Responds r) ->
  status_code r <> 200 ->
  status_code r <> 503 ->
  exists snippet,
    fst (call_gemini_with_video video_bytes mime_type w)
    = Raise (mk_exn RuntimeError
               ("Gemini API error " ++ str_of_int (status_code r) ++ ": " ++ snippet))
    /\ String.length snippet = Nat.min 300 (String.length (text r))
    /\ String.prefix snippet (text r) = true
    /\ ((String.length (text r) <= 300)%nat -> snippet = text r).
Proof.
  intros Hd H200 H503. exists (slice_to 300 (text r)).
  split; [| split; [| split]].
  - now rewrite (call_gemini_refused _ _ w k r Hd H200).
  - apply slice_to_length_min.
  - apply slice_to_prefix.
  - apply slice_to_short.
Qed.

End App.

(** ** The payload and the upload *)

Lemma below_64 (P : N -> bool) :
  forallb P (map N.of_nat (seq 0 64)) = true ->
  forall i, (i < 64)%N -> P i = true.
Proof.
  intros H i Hi. rewrite forallb_forall in H. apply H.
  apply in_map_iff. exists (N.to_nat i). split; [apply N2Nat.id |].
  apply in_seq. lia.
Qed.

Lemma b64_index_char i : (i < 64)%N -> b64_index (b64_char i) = Some i.
Proof.
  intros Hi.
  pose proof (below_64
    (fun i => match b64_index (b64_char i) with Some j => N.eqb j i | None => false end)
    eq_refl i Hi) as H.
  cbv beta in H. destruct (b64_index (b64_char i)) as [j |]; [| discriminate].
  apply N.eqb_eq in H. now subst.
Qed.

Lemma b64_char_not_pad i : (i < 64)%N -> Ascii.eqb (b64_char i) "=" = false.
Proof.
  intros Hi.
  pose proof (below_64 (fun i => negb (Ascii.eqb (b64_char i) "=")) eq_refl i Hi) as H.
  cbv beta in H. now apply negb_true_iff in H.
Qed.

Lemma sextet_spec n k : sextet n k = b64_char ((n / 2 ^ (6 * k)) mod 64)%N.
Proof.
  unfold sextet. rewrite N.shiftr_div_pow2.
  change 63%N with (N.ones 6). now rewrite N.land_ones.
Qed.

Lemma sextets_of_bytes b0 b1 b2 (n := (b0 * 65536 + b1 * 256 + b2)%N) :
  (b0 <= 255 -> b1 <= 255 -> b2 <= 255 ->
   (n / 262144) mod 64 * 4 + (n / 4096) mod 64 / 16 = b0
   /\ ((n / 4096) mod 64) mod 16 * 16 + (n / 64) mod 64 / 4 = b1
   /\ ((n / 64) mod 64) mod 4 * 64 + (n / 1) mod 64 = b2)%N.
Proof.
  subst n. intros H0 H1 H2. repeat split; zify; Z.to_euclidean_division_equations; lia.
Qed.

Lemma b64decode_b64encode_bounded n : forall bs,
  (length bs <= n)%nat -> b64decode (b64encode bs) = Some bs.
Proof.
  induction n as [| n IH]; intros bs Hlen.
  - destruct bs; [reflexivity | simpl in Hlen; lia].
  - destruct bs as [| b0 [| b1 [| b2 rest]]]; [reflexivity | | |].
    + pose proof (Byte.to_N_bounded b0) as B0.
      destruct (sextets_of_bytes (Byte.to_N b0) 0 0 B0) as (E0 & _); [lia | lia |].
      rewrite !N.add_0_r in E0.
      cbn [b64encode b64decode]. rewrite !sextet_spec.
      change (2 ^ (6 * 3))%N with 262144%N. change (2 ^ (6 * 2))%N with 4096%N.
      rewrite !b64_index_char by (apply N.mod_lt; lia).
      cbn. rewrite E0, Byte.of_to_N. reflexivity.
    + pose proof (Byte.to_N_bounded b0) as B0.
      pose proof (Byte.to_N_bounded b1) as B1.
      destruct (sextets_of_bytes (Byte.to_N b0) (Byte.to_N b1) 0 B0 B1)
        as (E0 & E1 & _); [lia |].
      rewrite !N.add_0_r in E0, E1.
      cbn [b64encode b64decode]. rewrite !sextet_spec.
      change (2 ^ (6 * 3))%N with 262144%N. change (2 ^ (6 * 2))%N with 4096%N.
      change (2 ^ (6 * 1))%N with 64%N.
      rewrite !b64_index_char by (apply N.mod_lt; lia).
      rewrite !b64_char_not_pad by (apply N.mod_lt; lia).
      rewrite E0, E1, !Byte.of_to_N. reflexivity.
    + pose proof (Byte.to_N_bounded b0) as B0.
      pose proof (Byte.to_N_bounded b1) as B1.
      pose proof (Byte.to_N_bounded b2) as B2.
      destruct (sextets_of_bytes (Byte.to_N b0) (Byte.to_N b1) (Byte.to_N b2) B0 B1 B2)
        as (E0 & E1 & E2).
      cbn [b64encode b64decode]. rewrite !sextet_spec.
      change (2 ^ (6 * 3))%N with 262144%N. change (2 ^ (6 * 2))%N with 4096%N.
      change (2 ^ (6 * 1))%N with 64%N. change (2 ^ (6 * 0))%N with 1%N.
      rewrite !b64_index_char by (apply N.mod_lt; lia).
      rewrite !b64_char_not_pad by (apply N.mod_lt; lia).
      rewrite E0, E1, E2, !Byte.of_to_N.
      rewrite IH by (simpl in Hlen; lia). reflexivity.
Qed.

Lemma b64decode_b64encode bs : b64decode (b64encode bs) = Some bs.
Proof. apply (b64decode_b64encode_bounded (length bs)). lia. Qed.

Lemma b64encode_length_bounded n : forall bs,
  (length bs <= n)%nat ->
  String.length (b64encode bs) = (4 * ((length bs + 2) / 3))%nat.
Proof.
  induction n as [| n IH]; intros bs Hlen.
  - destruct bs; [reflexivity | simpl in Hlen; lia].
  - destruct bs as [| b0 [| b1 [| b2 rest]]]; try reflexivity.
    cbn [b64encode String.length List.length].
    rewrite IH by (simpl in Hlen; lia).
    replace (S (S (S (length rest))) + 2)%nat with (1 * 3 + (length rest + 2))%nat by lia.
    rewrite Nat.div_add_l by lia. lia.
Qed.

Lemma b64encode_length bs :
  String.length (b64encode bs) = (4 * ((length bs + 2) / 3))%nat.
Proof. apply (b64encode_length_bounded (length bs)). lia. Qed.

Lemma b64encode_injective bs bs' : b64encode bs = b64encode bs' -> bs = bs'.
Proof.
  intros H. apply (f_equal b64decode) in H.
  rewrite !b64decode_b64encode in H. congruence.
Qed.

(** X13: the outbound request carries the upload without loss: its
    [data] field is text that decodes back to the bytes uploaded, and two
    requests are equal only if their bytes and their media types are. *)
Theorem payload_carries_the_upload EVAL_PROMPT video_bytes mime_type :
  media_data (build_payload EVAL_PROMPT video_bytes mime_type)
  = Ok (JStr (b64encode video_bytes))
  /\ b64decode (b64encode video_bytes) = Some video_bytes
  /\ (forall video_bytes' mime_type',
        build_payload EVAL_PROMPT video_bytes mime_type
        = build_payload EVAL_PROMPT video_bytes' mime_type' ->
        video_bytes = video_bytes' /\ mime_type = mime_type').
Proof.
  split; [reflexivity | split; [apply b64decode_b64encode |]].
  intros vb' m' H. unfold build_payload in H.
  injection H as Hm Hb. split; [now apply b64encode_injective | exact Hm].
Qed.

(** X14: the [data] field of the outbound request has four characters
    for every three bytes of the upload, the last group rounded up: an
    upload of [n] bytes travels as [4 * ceil(n / 3)] characters. *)
Theorem payload_data_length EVAL_PROMPT video_bytes mime_type :
  exists data,
    media_data (build_payload EVAL_PROMPT video_bytes mime_type) = Ok (JStr data)
    /\ String.length data = (4 * ((length video_bytes + 2) / 3))%nat.
Proof.
  exists (b64encode video_bytes). split; [reflexivity | apply b64encode_length].
Qed.

(** X12: the result of the relay depends on the attempt that is not
    retried and on nothing before it: it is the result the relay would give
    if the service met every call with that outcome. *)
Theorem retried_attempts_leave_no_mark
    json_loads upstream GEMINI_API_KEY EVAL_PROMPT video_bytes mime_type w k o :
  delivers upstream w k o ->
  ((k < 2)%nat -> retryable o = false) ->
  fst (call_gemini_with_video json_loads upstream GEMINI_API_KEY EVAL_PROMPT
         video_bytes mime_type w)
  = fst (call_gemini_with_video json_loads (fun _ => o) GEMINI_API_KEY EVAL_PROMPT
           video_bytes mime_type world0).
Proof.
  intros Hd Hstop.
  rewrite (call_gemini_run json_loads upstream GEMINI_API_KEY EVAL_PROMPT
             video_bytes mime_type w k o Hd Hstop).
  destruct (retryable o) eqn:Er.
  - assert (Hd' : delivers (fun _ => o) world0 2 o).
    { split; [lia | split; [intros i _; exact Er | reflexivity]]. }
    rewrite (call_gemini_run json_loads (fun _ => o) GEMINI_API_KEY EVAL_PROMPT
               video_bytes mime_type world0 2 o Hd') by lia.
    destruct (last_attempt o); [apply read_answer_fst | reflexivity].
  - assert (Hd' : delivers (fun _ => o) world0 0 o).
    { split; [lia | split; [intros i Hi; lia | reflexivity]]. }
    rewrite (call_gemini_run json_loads (fun _ => o) GEMINI_API_KEY EVAL_PROMPT
               video_bytes mime_type world0 0 o Hd') by (intros _; exact Er).
    destruct (last_attempt o); [apply read_answer_fst | reflexivity].
Qed.

(** ** The claims on concrete runs *)

Import Fixtures.

Example b64encode_Man : b64encode [x4d; x61; x6e]%byte = "TWFu".
Proof. reflexivity. Qed.

Example b64encode_padding :
  b64encode [x4d; x61]%byte = "TWE=" /\ b64encode [x4d]%byte = "TQ==".
Proof. split; reflexivity. Qed.

Example str_of_int_503 : str_of_int 503 = "503".
Proof. reflexivity. Qed.

Example loads_duplicate_key :
  MiniJson.loads (MiniJson.q "{'a':1,'b':2,'a':3}")
  = Decoded (JDict [("a", JInt 3); ("b", JInt 2)]).
Proof. reflexivity. Qed.

Example loads_answered :
  MiniJson.loads (text answered) = Decoded (envelope (JStr verdict_text))
  /\ MiniJson.loads verdict_text = Decoded (JDict verdict).
Proof. split; reflexivity. Qed.

(** A number where the answer text should be. *)
Example number_at_location_run :
  fst (evaluate_pitch MiniJson.loads (always number_at_location) key rubric
         (upload clip) world0)
  = Ok (mk_http
          (JDict [("error", JStr "evaluation_failed");
                  ("message",
                   JStr "the JSON object must be str, bytes or bytearray, not int")])
          500).
Proof. reflexivity. Qed.

Ltac run_delivers :=
  split; [lia | split; [| reflexivity]];
  intros i Hi; repeat (destruct i as [| i]; [reflexivity |]); lia.

Lemma clip_uploads : uploads (upload clip) clip clip_bytes.
Proof. repeat split. discriminate. Qed.

(** 503, 503, then the verdict: three calls, two sleeps, status 200. *)
Lemma retry_twice_then_answer_run :
  call_gemini_with_video MiniJson.loads busy_twice key rubric clip_bytes "video/webm" world0
  = (Ok (JDict verdict),
     mk_world 3
       [EvPost (url key) (build_payload rubric clip_bytes "video/webm") 300; EvSleep 5;
        EvPost (url key) (build_payload rubric clip_bytes "video/webm") 300; EvSleep 5;
        EvPost (url key) (build_payload rubric clip_bytes "video/webm") 300])
  /\ fst (evaluate_pitch MiniJson.loads busy_twice key rubric (upload clip) world0)
     = Ok (mk_http (JDict verdict) 200).
Proof.
  assert (H : delivers busy_twice world0 2 (Responds answered)) by run_delivers.
  pose proof (retry_twice_then_answer MiniJson.loads busy_twice key rubric
                clip_bytes "video/webm" world0 answered
                (envelope (JStr verdict_text)) verdict_text verdict
                H eq_refl eq_refl eq_refl eq_refl) as (Hrelay & Hfront & _).
  split.
  - exact Hrelay.
  - exact (Hfront (upload clip) clip clip_uploads).
Defined.

(** 503 for ever: three calls, then 500. *)
Lemma always_503_three_attempts_run :
  call_gemini_with_video MiniJson.loads always_busy key rubric clip_bytes "video/webm" world0
  = (Raise (mk_exn RuntimeError "Gemini API error 503: The model is overloaded."),
     mk_world 3
       [EvPost (url key) (build_payload rubric clip_bytes "video/webm") 300; EvSleep 5;
        EvPost (url key) (build_payload rubric clip_bytes "video/webm") 300; EvSleep 5;
        EvPost (url key) (build_payload rubric clip_bytes "video/webm") 300])
  /\ fst (evaluate_pitch MiniJson.loads always_busy key rubric (upload clip) world0)
     = Ok (mk_http
             (JDict [("error", JStr "evaluation_failed");
                     ("message", JStr "Gemini API error 503: The model is overloaded.")])
             500).
Proof.
  assert (H : forall n, exists r, always_busy n = Responds r /\ status_code r = 503).
  { intros n. exists overloaded. split; reflexivity. }
  destruct (always_503_three_attempts MiniJson.loads always_busy key rubric
              clip_bytes "video/webm" world0 H) as (r3 & H3 & Hrelay & Hfront).
  assert (Hr : r3 = overloaded) by (unfold always_busy in H3; congruence).
  subst r3. split.
  - exact Hrelay.
  - exact (Hfront (upload clip) clip clip_uploads).
Defined.

(** A 418 on the first attempt: one call, the body cut at 300 characters. *)
Lemma other_status_fails_at_once_run :
  call_gemini_with_video MiniJson.loads (always teapot) key rubric clip_bytes "video/webm" world0
  = (Raise (mk_exn RuntimeError
       ("Gemini API error 418: " ++ String.concat "" (repeat "0123456789" 30))),
     mk_world 1 [EvPost (url key) (build_payload rubric clip_bytes "video/webm") 300]).
Proof.
  assert (H : delivers (always teapot) world0 0 (Responds teapot)) by run_delivers.
  assert (H200 : status_code teapot <> 200) by discriminate.
  assert (H503 : status_code teapot <> 503) by discriminate.
  exact (proj1 (other_status_fails_at_once MiniJson.loads (always teapot) key rubric
                  clip_bytes "video/webm" world0 0 teapot H H200 H503)).
Defined.

(** The location is there and holds the number 5: the lookup succeeds, and
    the error that follows is a [TypeError] of [json.loads], not the
    response-format error. *)
Lemma malformed_text_is_not_a_format_error :
  status_code number_at_location = 200
  /\ MiniJson.loads (text number_at_location) = Decoded (envelope (JInt 5))
  /\ answer_location (envelope (JInt 5)) = Some (JInt 5)
  /\ answer_text (envelope (JInt 5)) = Ok (JInt 5)
  /\ fst (call_gemini_with_video MiniJson.loads (always number_at_location) key
            rubric clip_bytes "video/webm" world0)
     = Raise (mk_exn TypeError
                "the JSON object must be str, bytes or bytearray, not int")
  /\ is_RuntimeError
       (mk_exn TypeError "the JSON object must be str, bytes or bytearray, not int")
     = false
  /\ String.prefix "Unexpected Gemini response format"
       "the JSON object must be str, bytes or bytearray, not int" = false
  /\ fst (evaluate_pitch MiniJson.loads (always number_at_location) key rubric
            (upload clip) world0)
     = Ok (mk_http
             (JDict [("error", JStr "evaluation_failed");
                     ("message",
                      JStr "the JSON object must be str, bytes or bytearray, not int")])
             500).
Proof. repeat split. Qed.

(** After one timeout, an envelope without candidates. *)
Lemma missing_location_is_format_error_run :
  fst (evaluate_pitch MiniJson.loads (slow_then no_candidates) key rubric
         (upload clip) world0)
  = Ok (mk_http
          (JDict [("error", JStr "evaluation_failed");
                  ("message",
                   JStr "Unexpected Gemini response format: list index out of range")])
          500).
Proof.
  assert (H : delivers (slow_then no_candidates) world0 1 (Responds no_candidates))
    by run_delivers.
  destruct (missing_location_is_format_error MiniJson.loads (slow_then no_candidates)
              key rubric clip_bytes "video/webm" world0 1 no_candidates
              (JDict [("candidates", JList [])]) H eq_refl eq_refl eq_refl)
    as (e & He & _ & Hfront).
  assert (Hr : e = mk_exn IndexError "list index out of range")
    by (vm_compute in He; congruence).
  subst e. exact (Hfront (upload clip) clip clip_uploads).
Defined.

(** The three ways of an answer text. *)
Lemma answer_text_decoding_run :
  fst (call_gemini_with_video MiniJson.loads (always prose_answer) key rubric
         clip_bytes "video/webm" world0)
  = Raise (mk_exn RuntimeError "Gemini did not return valid JSON: Expecting value")
  /\ fst (call_gemini_with_video MiniJson.loads (always array_answer) key rubric
            clip_bytes "video/webm" world0)
     = Raise (mk_exn RuntimeError "Gemini JSON root must be an object")
  /\ fst (call_gemini_with_video MiniJson.loads (always answered) key rubric
            clip_bytes "video/webm" world0)
     = Ok (JDict verdict).
Proof.
  assert (H1 : delivers (always prose_answer) world0 0 (Responds prose_answer))
    by run_delivers.
  assert (H2 : delivers (always array_answer) world0 0 (Responds array_answer))
    by run_delivers.
  assert (H3 : delivers (always answered) world0 0 (Responds answered))
    by run_delivers.
  pose proof (answer_text_decoding MiniJson.loads (always prose_answer) key rubric
                clip_bytes "video/webm" world0 0 prose_answer
                (envelope (JStr "Here is my verdict")) "Here is my verdict"
                H1 eq_refl eq_refl eq_refl) as (Hbad & _ & _).
  pose proof (answer_text_decoding MiniJson.loads (always array_answer) key rubric
                clip_bytes "video/webm" world0 0 array_answer
                (envelope (JStr "[78, 81]")) "[78, 81]"
                H2 eq_refl eq_refl eq_refl) as (_ & Hroot & _).
  pose proof (answer_text_decoding MiniJson.loads (always answered) key rubric
                clip_bytes "video/webm" world0 0 answered
                (envelope (JStr verdict_text)) verdict_text
                H3 eq_refl eq_refl eq_refl) as (_ & _ & Hgood).
  split; [| split].
  - exact (f_equal fst (Hbad "Expecting value" eq_refl)).
  - exact (f_equal fst (Hroot (JList [JInt 78; JInt 81]) eq_refl eq_refl)).
  - exact (f_equal fst (Hgood verdict eq_refl)).
Defined.

(** No [video] field, and an empty file. *)
Lemma missing_or_empty_upload_run :
  evaluate_pitch MiniJson.loads always_busy key rubric other_field world0
  = (Ok (mk_http (JDict [("error", JStr "missing 'video' file field")]) 400), world0)
  /\ evaluate_pitch MiniJson.loads always_busy key rubric (upload empty_clip) world0
     = (Ok (mk_http (JDict [("error", JStr "empty video payload")]) 400), world0).
Proof.
  split.
  - exact (proj1 (missing_or_empty_upload MiniJson.loads always_busy key rubric
                    other_field world0) eq_refl).
  - exact (proj2 (missing_or_empty_upload MiniJson.loads always_busy key rubric
                    (upload empty_clip) world0) empty_clip eq_refl eq_refl).
Defined.

(** A file that cannot be read: 500. *)
Lemma evaluate_pitch_never_raises_run :
  fst (evaluate_pitch MiniJson.loads always_busy key rubric (upload unreadable_clip)
         world0)
  = Ok (mk_http (JDict [("error", JStr "evaluation_failed");
                        ("message", JStr "I/O operation on closed file.")]) 500).
Proof.
  destruct (evaluate_pitch_never_raises MiniJson.loads always_busy key rubric
              (upload unreadable_clip) world0)
    as (resp & w' & Hrun & _ & _ & Hread).
  rewrite Hrun. simpl fst. f_equal.
  exact (Hread unreadable_clip (mk_exn OSError "I/O operation on closed file.")
           eq_refl eq_refl).
Defined.



(** After 503, 503, the loop left by [break] holds the third response. *)
Lemma extraction_reads_a_200_response_run :
  exists k r,
    delivers busy_twice world0 k (Responds r)
    /\ status_code r = 200
    /\ Some answered = Some r
    /\ load_resp (Some answered) = Ok r
    /\ mk_world 3
         [EvPost (url key) (build_payload rubric clip_bytes "video/webm") 300; EvSleep 5;
          EvPost (url key) (build_payload rubric clip_bytes "video/webm") 300; EvSleep 5;
          EvPost (url key) (build_payload rubric clip_bytes "video/webm") 300]
       = after key (build_payload rubric clip_bytes "video/webm") world0 k.
Proof.
  exact (proj1 (extraction_reads_a_200_response MiniJson.loads busy_twice key rubric
                  clip_bytes "video/webm" world0) _ _ eq_refl).
Defined.

(** A page of HTML with status 200. *)
Lemma undecodable_body_is_not_wrapped_run :
  call_gemini_with_video MiniJson.loads (always html_page) key rubric clip_bytes
    "video/webm" world0
  = (Raise (mk_exn JSONDecodeError "Expecting value"),
     mk_world 1 [EvPost (url key) (build_payload rubric clip_bytes "video/webm") 300])
  /\ fst (evaluate_pitch MiniJson.loads (always html_page) key rubric (upload clip) world0)
     = Ok (mk_http (JDict [("error", JStr "evaluation_failed");
                           ("message", JStr "Expecting value")]) 500).
Proof.
  assert (H : delivers (always html_page) world0 0 (Responds html_page)) by run_delivers.
  pose proof (undecodable_body_is_not_wrapped MiniJson.loads (always html_page) key
                rubric clip_bytes "video/webm" world0 0 html_page "Expecting value"
                H eq_refl eq_refl) as (Hrelay & _ & _ & Hfront).
  split.
  - exact Hrelay.
  - exact (Hfront (upload clip) clip clip_uploads).
Defined.

(** ** Further runs *)

Definition always_slow (n : nat) : post_outcome :=
  Fails (mk_exn Timeout "Read timed out. (read timeout=300)").

Definition refused_after_busy (n : nat) : post_outcome :=
  match n with
  | 0%nat => Responds overloaded
  | _ => Fails (mk_exn RequestException "Connection refused")
  end.

Definition crowded_form : request :=
  mk_request [("audio", untyped_clip); ("video", clip); ("video", empty_clip)].

(** Three timeouts. *)
Lemma final_timeout_is_surfaced_run :
  call_gemini_with_video MiniJson.loads always_slow key rubric clip_bytes "video/webm" world0
  = (Raise (mk_exn RuntimeError "Gemini API request timed out after retries"),
     mk_world 3
       [EvPost (url key) (build_payload rubric clip_bytes "video/webm") 300; EvSleep 5;
        EvPost (url key) (build_payload rubric clip_bytes "video/webm") 300; EvSleep 5;
        EvPost (url key) (build_payload rubric clip_bytes "video/webm") 300])
  /\ fst (evaluate_pitch MiniJson.loads always_slow key rubric (upload clip) world0)
     = Ok (mk_http
             (JDict [("error", JStr "evaluation_failed");
                     ("message", JStr "Gemini API request timed out after retries")])
             500).
Proof.
  assert (H : delivers always_slow world0 2
                (Fails (mk_exn Timeout "Read timed out. (read timeout=300)"))).
  { split; [lia | split; [intros i _; reflexivity | reflexivity]]. }
  pose proof (final_timeout_is_surfaced MiniJson.loads always_slow key rubric
                clip_bytes "video/webm" world0 _ H eq_refl) as (Hrelay & Hfront).
  split.
  - exact Hrelay.
  - exact (Hfront (upload clip) clip clip_uploads).
Defined.

(** A 503, then a refused connection: two calls, one sleep. *)
Lemma transport_error_is_not_retried_run :
  call_gemini_with_video MiniJson.loads refused_after_busy key rubric clip_bytes
    "video/webm" world0
  = (Raise (mk_exn RequestException "Connection refused"),
     mk_world 2
       [EvPost (url key) (build_payload rubric clip_bytes "video/webm") 300; EvSleep 5;
        EvPost (url key) (build_payload rubric clip_bytes "video/webm") 300])
  /\ fst (evaluate_pitch MiniJson.loads refused_after_busy key rubric (upload clip) world0)
     = Ok (mk_http
             (JDict [("error", JStr "evaluation_failed");
                     ("message", JStr "Connection refused")])
             500).
Proof.
  assert (H : delivers refused_after_busy world0 1
                (Fails (mk_exn RequestException "Connection refused")))
    by run_delivers.
  pose proof (transport_error_is_not_retried MiniJson.loads refused_after_busy key
                rubric clip_bytes "video/webm" world0 1 _ H eq_refl)
    as (Hrelay & Hfront).
  split.
  - exact Hrelay.
  - exact (Hfront (upload clip) clip clip_uploads).
Defined.

(** The number 5 at the answer-text location. *)
Lemma non_text_answer_reaches_the_handler_run :
  fst (call_gemini_with_video MiniJson.loads (always number_at_location) key rubric
         clip_bytes "video/webm" world0)
  = Raise (mk_exn TypeError "the JSON object must be str, bytes or bytearray, not int")
  /\ fst (evaluate_pitch MiniJson.loads (always number_at_location) key rubric
            (upload clip) world0)
     = Ok (mk_http
             (JDict [("error", JStr "evaluation_failed");
                     ("message",
                      JStr "the JSON object must be str, bytes or bytearray, not int")])
             500).
Proof.
  assert (H : delivers (always number_at_location) world0 0
                (Responds number_at_location)) by run_delivers.
  assert (Hv : forall s, JInt 5 <> JStr s) by discriminate.
  pose proof (non_text_answer_reaches_the_handler MiniJson.loads
                (always number_at_location) key rubric clip_bytes "video/webm"
                world0 0 number_at_location (envelope (JInt 5)) (JInt 5)
                H eq_refl eq_refl eq_refl Hv) as (Hrelay & _ & Hfront).
  split.
  - exact Hrelay.
  - exact (Hfront (upload clip) clip clip_uploads).
Defined.

(** The 200 of the run 503, 503, verdict. *)
Lemma status_200_means_upstream_object_run :
  exists f video_bytes k r data txt items,
    uploads (upload clip) f video_bytes
    /\ delivers busy_twice world0 k (Responds r)
    /\ status_code r = 200
    /\ MiniJson.loads (text r) = Decoded data
    /\ answer_location data = Some (JStr txt)
    /\ MiniJson.loads txt = Decoded (JDict items)
    /\ JDict verdict = JDict items
    /\ snd (evaluate_pitch MiniJson.loads busy_twice key rubric (upload clip) world0)
       = after key (build_payload rubric video_bytes (py_or (mimetype f) "video/mp4"))
           world0 k.
Proof.
  exact (status_200_means_upstream_object MiniJson.loads busy_twice key rubric
           (upload clip) world0 (mk_http (JDict verdict) 200)
           (snd (evaluate_pitch MiniJson.loads busy_twice key rubric (upload clip) world0))
           eq_refl eq_refl).
Defined.

(** A form without the field, answered 400. *)
Lemma status_400_iff_no_usable_upload_run :
  (400 = 400
   <-> files_contains other_field "video" = false
       \/ exists f, files_getitem other_field "video" = Ok f /\ read f = Ok [])
  /\ (400 = 400 -> world0 = world0).
Proof.
  exact (status_400_iff_no_usable_upload MiniJson.loads always_busy key rubric
           other_field world0
           (mk_http (JDict [("error", JStr "missing 'video' file field")]) 400)
           world0 eq_refl).
Defined.

(** A clip declared as video/webm. *)
Lemma declared_media_type_is_forwarded_run :
  exists k,
    (k <= 2)%nat
    /\ snd (evaluate_pitch MiniJson.loads busy_twice key rubric (upload clip) world0)
       = after key (build_payload rubric clip_bytes "video/webm") world0 k
    /\ media_tag (build_payload rubric clip_bytes "video/webm") = Ok (JStr "video/webm").
Proof.
  assert (Hne : "video/webm" <> "") by discriminate.
  exact (declared_media_type_is_forwarded MiniJson.loads busy_twice key rubric
           (upload clip) clip clip_bytes world0 "video/webm"
           clip_uploads eq_refl Hne).
Defined.

(** The 500 of a service that is always busy. *)
Lemma status_500_carries_the_exception_run :
  exists e,
    mk_http (JDict [("error", JStr "evaluation_failed");
                    ("message", JStr "Gemini API error 503: The model is overloaded.")])
      500
    = mk_http (JDict [("error", JStr "evaluation_failed"); ("message", JStr (str e))]) 500
    /\ ((exists f,
            files_getitem (upload clip) "video" = Ok f /\ read f = Raise e
            /\ snd (evaluate_pitch MiniJson.loads always_busy key rubric (upload clip)
                      world0) = world0)
        \/ (exists f video_bytes,
               uploads (upload clip) f video_bytes
               /\ call_gemini_with_video MiniJson.loads always_busy key rubric
                    video_bytes (py_or (mimetype f) "video/mp4") world0
                  = (Raise e,
                     snd (evaluate_pitch MiniJson.loads always_busy key rubric
                            (upload clip) world0)))).
Proof.
  exact (status_500_carries_the_exception MiniJson.loads always_busy key rubric
           (upload clip) world0 _ _ eq_refl eq_refl).
Defined.

(** An audio field first, a second video file last. *)
Lemma other_fields_are_ignored_run :
  evaluate_pitch MiniJson.loads busy_twice key rubric crowded_form world0
  = evaluate_pitch MiniJson.loads busy_twice key rubric (upload clip) world0.
Proof.
  assert (H : forall kv, In kv [("audio", untyped_clip)] -> fst kv <> "video").
  { intros kv [<- | []]. discriminate. }
  exact (other_fields_are_ignored MiniJson.loads busy_twice key rubric
           [("audio", untyped_clip)] [("video", empty_clip)] clip world0 H).
Defined.

(** An envelope whose list of candidates is empty. *)
Lemma envelope_edge_messages_run :
  fst (call_gemini_with_video MiniJson.loads (always no_candidates) key rubric
         clip_bytes "video/webm" world0)
  = Raise (mk_exn RuntimeError
             "Unexpected Gemini response format: list index out of range").
Proof.
  assert (H : delivers (always no_candidates) world0 0 (Responds no_candidates))
    by run_delivers.
  pose proof (envelope_edge_messages MiniJson.loads (always no_candidates) key rubric
                clip_bytes "video/webm" world0 0 no_candidates
                (JDict [("candidates", JList [])]) H eq_refl eq_refl)
    as (_ & Hempty & _).
  exact (Hempty [("candidates", JList [])] eq_refl eq_refl).
Defined.

(** A body of 310 characters under status 418. *)
Lemma error_snippet_is_exact_run :
  exists snippet,
    fst (call_gemini_with_video MiniJson.loads (always teapot) key rubric
           clip_bytes "video/webm" world0)
    = Raise (mk_exn RuntimeError ("Gemini API error 418: " ++ snippet))
    /\ String.length snippet = 300%nat
    /\ String.prefix snippet long_body = true
    /\ ((String.length long_body <= 300)%nat -> snippet = long_body).
Proof.
  assert (H : delivers (always teapot) world0 0 (Responds teapot)) by run_delivers.
  assert (H200 : status_code teapot <> 200) by discriminate.
  assert (H503 : status_code teapot <> 503) by discriminate.
  exact (error_snippet_is_exact MiniJson.loads (always teapot) key rubric
           clip_bytes "video/webm" world0 0 teapot H H200 H503).
Defined.

(** 503, 503, verdict gives what a service that always answers gives. *)
Lemma retried_attempts_leave_no_mark_run :
  fst (call_gemini_with_video MiniJson.loads busy_twice key rubric clip_bytes
         "video/webm" world0)
  = fst (call_gemini_with_video MiniJson.loads (fun _ => Responds answered) key rubric
           clip_bytes "video/webm" world0).
Proof.
  assert (H : delivers busy_twice world0 2 (Responds answered)) by run_delivers.
  assert (Hstop : (2 < 2)%nat -> retryable (Responds answered) = false)
    by (intros _; reflexivity).
  exact (retried_attempts_leave_no_mark MiniJson.loads busy_twice key rubric
           clip_bytes "video/webm" world0 2 (Responds answered) H Hstop).
Defined.
